(** * mesh_ingester: validation pipeline for mesh products

    A shallow embedding of [mesh_ingester.py].  The DataFrame produced by
    [pd.read_csv] is a list of rows of scalar cells; the row loop of
    [ingest_and_validate_csv] is a state-passing program over the frame,
    the batch error list and the local [row_errors]; Python exceptions are
    an explicit result type.  Python's [float] arithmetic is not part of
    the repository and is taken as an interface ([PyFloat]); a decimal
    instance ([Dec]) evaluates the examples. *)

From Stdlib Require Import ZArith NArith Ascii String DecimalString Lia.
From Stdlib Require DecimalFacts DecimalNat DecimalPos DecimalZ.
From stdpp Require Import base list strings sorting.

Open Scope string_scope.
Open Scope list_scope.

(** ** Python strings (ASCII) *)

(** [str.isspace] on ASCII: TAB..CR, FS..US and the blank. *)
Definition is_space (c : ascii) : bool :=
  let n := nat_of_ascii c in
  (((9 <=? n) && (n <=? 13)) || ((28 <=? n) && (n <=? 32)))%nat.

Fixpoint lstrip (s : string) : string :=
  match s with
  | EmptyString => EmptyString
  | String c s' => if is_space c then lstrip s' else s
  end.

Fixpoint rstrip (s : string) : string :=
  match s with
  | EmptyString => EmptyString
  | String c s' =>
      match rstrip s' with
      | EmptyString => if is_space c then EmptyString else String c EmptyString
      | t => String c t
      end
  end.

(** [s.strip()] *)
Definition strip (s : string) : string := rstrip (lstrip s).

Definition lower_char (c : ascii) : ascii :=
  let n := nat_of_ascii c in
  if ((65 <=? n) && (n <=? 90))%nat then ascii_of_nat (n + 32) else c.

(** [s.lower()] *)
Fixpoint lower (s : string) : string :=
  match s with
  | EmptyString => EmptyString
  | String c s' => String (lower_char c) (lower s')
  end.

(** [s.split(sep)] for a one-character separator: never the empty list. *)
Fixpoint split (sep : ascii) (s : string) : list string :=
  match s with
  | EmptyString => [EmptyString]
  | String c s' =>
      if Ascii.eqb c sep then EmptyString :: split sep s'
      else match split sep s' with
           | h :: t => String c h :: t
           | [] => [String c EmptyString]
           end
  end.

(** [sep.join(l)] *)
Fixpoint join (sep : string) (l : list string) : string :=
  match l with
  | [] => EmptyString
  | [x] => x
  | x :: t => x +:+ sep +:+ join sep t
  end.

(** The characters of a string, as [','.join(s)] iterates them. *)
Fixpoint chars (s : string) : list string :=
  match s with
  | EmptyString => []
  | String c s' => String c EmptyString :: chars s'
  end.

(** [str(n)] for an integer. *)
Definition str_of_nat (n : nat) : string := NilZero.string_of_uint (Nat.to_uint n).
Definition str_of_Z (n : Z) : string := NilZero.string_of_int (Z.to_int n).

Definition is_digit (c : ascii) : bool :=
  let n := nat_of_ascii c in ((48 <=? n) && (n <=? 57))%nat.

Definition digit_val (c : ascii) : N := N.of_nat (nat_of_ascii c - 48).

(** A run of decimal digits in which single underscores may stand between
    two digits (PEP 515): its value and its number of digits. *)
Fixpoint digit_run (after_digit : bool) (acc : N) (cnt : nat) (s : string)
  : option (N * nat) :=
  match s with
  | EmptyString => if after_digit then Some (acc, cnt) else None
  | String c s' =>
      if is_digit c then digit_run true (10 * acc + digit_val c)%N (S cnt) s'
      else if Ascii.eqb c "_" then
             if after_digit then digit_run false acc cnt s' else None
           else None
  end.

Definition digits (s : string) : option (N * nat) := digit_run false 0%N 0 s.

(** Optional sign in front of [s]: [true] for a minus. *)
Definition take_sign (s : string) : bool * string :=
  match s with
  | String "-" r => (true, r)
  | String "+" r => (false, r)
  | _ => (false, s)
  end.

(** [int(s)] on a string; [None] is Python's [ValueError]. *)
Definition int_of_str (s : string) : option Z :=
  let '(neg, r) := take_sign (strip s) in
  match digits r with
  | Some (n, _) => Some (if neg then (- Z.of_N n)%Z else Z.of_N n)
  | None => None
  end.

(** Every character of [s] satisfies [p]. *)
Fixpoint all_chars (p : ascii -> bool) (s : string) : bool :=
  match s with
  | EmptyString => true
  | String c s' => p c && all_chars p s'
  end.

(** ** Exceptions *)

Inductive exn :=
| ValueError (msg : string)
| AttributeError
| OverflowError
| TypeError.

Inductive res (A : Type) :=
| Ret (a : A)
| Raise (e : exn).
Arguments Ret {A} a.
Arguments Raise {A} e.

Definition rbind {A B} (r : res A) (k : A -> res B) : res B :=
  match r with
  | Ret a => k a
  | Raise e => Raise e
  end.

(** [try: body  except ValueError: handler] for side-effect free code. *)
Definition try_ValueError {A} (body : res A) (handler : string -> res A) : res A :=
  match body with
  | Raise (ValueError m) => handler m
  | r => r
  end.

(** ** Python floats, as the validators use them *)

Class PyFloat := {
  pyfloat : Type;
  (** [float(s)] on a string; [None] is [ValueError] *)
  float_of_str : string -> option pyfloat;
  (** [float(n)] on an integer *)
  float_of_int : Z -> pyfloat;
  (** [x < 0] *)
  float_neg : pyfloat -> bool;
  (** [math.isnan(x)] *)
  float_isnan : pyfloat -> bool;
  (** [str(x)] *)
  float_repr : pyfloat -> string;
  (** [int(x)]: truncation toward zero; [None] for an infinity or a NaN *)
  float_trunc : pyfloat -> option Z;
  (** [x == y] *)
  float_eqb : pyfloat -> pyfloat -> bool;
  float_eqb_sym : forall x y, float_eqb x y = float_eqb y x
}.

(** ** The data frame *)

(** The columns of the frame: the CSV header is taken to name all eight. *)
Inductive column :=
| c_codename | c_trame | c_mass_surf | c_is_compat_interior_wall
| c_mesh_height | c_mesh_width | c_roll_pallet | c_color_names.

Definition column_name (c : column) : string :=
  match c with
  | c_codename => "codename"
  | c_trame => "trame"
  | c_mass_surf => "mass_surf"
  | c_is_compat_interior_wall => "is_compat_interior_wall"
  | c_mesh_height => "mesh_height"
  | c_mesh_width => "mesh_width"
  | c_roll_pallet => "roll_pallet"
  | c_color_names => "color_names"
  end.

(** A row: one entry per column. *)
Record row (A : Type) := Row {
  codename : A;
  trame : A;
  mass_surf : A;
  is_compat_interior_wall : A;
  mesh_height : A;
  mesh_width : A;
  roll_pallet : A;
  color_names : A
}.
Arguments Row {A}.
Arguments codename {A}.
Arguments trame {A}.
Arguments mass_surf {A}.
Arguments is_compat_interior_wall {A}.
Arguments mesh_height {A}.
Arguments mesh_width {A}.
Arguments roll_pallet {A}.
Arguments color_names {A}.

(** [row[c]] *)
Definition get {A} (c : column) (r : row A) : A :=
  match c with
  | c_codename => codename r
  | c_trame => trame r
  | c_mass_surf => mass_surf r
  | c_is_compat_interior_wall => is_compat_interior_wall r
  | c_mesh_height => mesh_height r
  | c_mesh_width => mesh_width r
  | c_roll_pallet => roll_pallet r
  | c_color_names => color_names r
  end.

(** [row[c] = v] *)
Definition set_col {A} (c : column) (v : A) (r : row A) : row A :=
  match c with
  | c_codename =>
      Row v (trame r) (mass_surf r) (is_compat_interior_wall r) (mesh_height r)
        (mesh_width r) (roll_pallet r) (color_names r)
  | c_trame =>
      Row (codename r) v (mass_surf r) (is_compat_interior_wall r) (mesh_height r)
        (mesh_width r) (roll_pallet r) (color_names r)
  | c_mass_surf =>
      Row (codename r) (trame r) v (is_compat_interior_wall r) (mesh_height r)
        (mesh_width r) (roll_pallet r) (color_names r)
  | c_is_compat_interior_wall =>
      Row (codename r) (trame r) (mass_surf r) v (mesh_height r)
        (mesh_width r) (roll_pallet r) (color_names r)
  | c_mesh_height =>
      Row (codename r) (trame r) (mass_surf r) (is_compat_interior_wall r) v
        (mesh_width r) (roll_pallet r) (color_names r)
  | c_mesh_width =>
      Row (codename r) (trame r) (mass_surf r) (is_compat_interior_wall r)
        (mesh_height r) v (roll_pallet r) (color_names r)
  | c_roll_pallet =>
      Row (codename r) (trame r) (mass_surf r) (is_compat_interior_wall r)
        (mesh_height r) (mesh_width r) v (color_names r)
  | c_color_names =>
      Row (codename r) (trame r) (mass_surf r) (is_compat_interior_wall r)
        (mesh_height r) (mesh_width r) (roll_pallet r) v
  end.

Definition map_row {A B} (f : A -> B) (r : row A) : row B :=
  Row (f (codename r)) (f (trame r)) (f (mass_surf r)) (f (is_compat_interior_wall r))
    (f (mesh_height r)) (f (mesh_width r)) (f (roll_pallet r)) (f (color_names r)).

Section Ingester.
Context `{PyFloat}.

(** A scalar as [pd.read_csv] delivers it.  A missing entry (an empty
    field, [NaN] or a single blank) is the float NaN. *)
Inductive cell :=
| Str (s : string)
| Flt (x : pyfloat)
| Int (n : Z)
| Bool (b : bool).

(** What a frame entry holds once the loop has written to it. *)
Inductive value :=
| Cell (c : cell)
| Lst (l : list string)
| PyNone.

(** A row of the working frame, with the added [exclude] column. *)
Record frow := FRow { vals : row value; exclude : bool }.

(** [pd.isnull(v)] on a scalar. *)
Definition pd_isnull (v : cell) : bool :=
  match v with
  | Flt x => float_isnan x
  | _ => false
  end.

(** [str(v)], which is also what an f-string inserts. *)
Definition py_str (v : cell) : string :=
  match v with
  | Str s => s
  | Flt x => float_repr x
  | Int n => str_of_Z n
  | Bool b => if b then "True" else "False"
  end.

(** [float(v)].  The text of the built-in's own [ValueError] is never
    observed: both callers replace it. *)
Definition py_float (v : cell) : res pyfloat :=
  match v with
  | Str s => match float_of_str s with
             | Some x => Ret x
             | None => Raise (ValueError "could not convert string to float")
             end
  | Flt x => Ret x
  | Int n => Ret (float_of_int n)
  | Bool b => Ret (float_of_int (if b then 1 else 0))
  end.

(** [int(v)]; again the built-in's own message is replaced by the caller. *)
Definition py_int (v : cell) : res Z :=
  match v with
  | Str s => match int_of_str s with
             | Some n => Ret n
             | None => Raise (ValueError "invalid literal for int()")
             end
  | Flt x => if float_isnan x
             then Raise (ValueError "cannot convert float NaN to integer")
             else match float_trunc x with
                  | Some n => Ret n
                  | None => Raise OverflowError
                  end
  | Int n => Ret n
  | Bool b => Ret (if b then 1 else 0)%Z
  end.

(** [v in l] for a list of strings: only a string equals a string. *)
Definition in_strs (v : cell) (l : list string) : bool :=
  match v with
  | Str s => existsb (String.eqb s) l
  | _ => false
  end.

(** [s in l] for a string and a list of scalars. *)
Definition str_in (s : string) (l : list cell) : bool :=
  existsb (fun c => match c with Str t => String.eqb s t | _ => false end) l.

(** What [validate_optional_int] returns, as a frame entry. *)
Definition int_value (v : option Z) : value :=
  match v with Some n => Cell (Int n) | None => PyNone end.

(** ** Field validators *)

Definition convert_and_validate_colors (color_names_str : cell)
  (possible_colors : list string) : res (list string) :=
  match color_names_str with
  | Str s =>
      let colors_list := split "," s in
      if forallb (fun color => existsb (String.eqb (strip color)) possible_colors)
           colors_list
      then Ret colors_list
      else Raise (ValueError ("Invalid color names in the list. Got " +:+ s))
  | _ => Raise AttributeError
  end.

Definition validate_trame (v : cell) (valid_values : list string) : res unit :=
  if negb (in_strs v valid_values)
  then Raise (ValueError ("Value " +:+ py_str v +:+ " for trame is not valid."))
  else Ret tt.

Definition validate_mass_surf (v : cell) : res pyfloat :=
  try_ValueError
    (rbind (py_float v) (fun mass_surf_value =>
       if float_neg mass_surf_value
       then Raise (ValueError ("mass_surf must be non-negative. Got "
                               +:+ float_repr mass_surf_value))
       else Ret mass_surf_value))
    (fun _ => Raise (ValueError ("mass_surf must be a float. Got " +:+ py_str v))).

Definition true_values : list cell := [Str "vrai"; Str "true"; Int 1; Str "1"].
Definition false_values : list cell := [Str "faux"; Str "false"; Int 0; Str "0"].

Definition validate_bool (v : cell) : res bool :=
  if str_in (lower (py_str v)) true_values then Ret true
  else if str_in (lower (py_str v)) false_values then Ret false
  else Raise (ValueError ("Expected boolean value. Got " +:+ py_str v)).

Definition validate_positive_float (v : cell) (field_name : string) : res pyfloat :=
  try_ValueError
    (rbind (py_float v) (fun float_value =>
       if float_neg float_value
       then Raise (ValueError (field_name +:+ " must be non-negative. Got "
                               +:+ float_repr float_value))
       else Ret float_value))
    (fun _ => Raise (ValueError (field_name +:+ " must be a float. Got " +:+ py_str v))).

Definition validate_optional_int (v : cell) : res (option Z) :=
  if pd_isnull v || (match v with Str s => String.eqb s EmptyString | _ => false end)
  then Ret None
  else try_ValueError
         (rbind (py_int v) (fun n => Ret (Some n)))
         (fun _ => Raise (ValueError ("Expected integer value. Got " +:+ py_str v))).

(** ** The row loop *)

(** The mutable state of [ingest_and_validate_csv]: the frame, the batch
    error list and the loop's local [row_errors]. *)
Record state := State {
  df : list frow;
  error_messages : list string;
  row_errors : list string
}.

(** A statement: it may update the state and may raise; what it wrote
    before raising stays written. *)
Definition M (A : Type) : Type := state -> state * res A.

Definition mret {A} (a : A) : M A := fun s => (s, Ret a).

Definition mbind {A B} (m : M A) (k : A -> M B) : M B :=
  fun s => match m s with
           | (s', Ret a) => k a s'
           | (s', Raise e) => (s', Raise e)
           end.

Notation "x <- m ;; k" := (mbind m (fun x => k))
  (at level 100, m at next level, right associativity).
Notation "m ;; k" := (mbind m (fun _ => k))
  (at level 100, right associativity).

(** Running a validator inside the loop. *)
Definition call {A} (r : res A) : M A := fun s => (s, r).

(** [try: body  except ValueError as e: handler(e)] *)
Definition try_except {A} (body : M A) (handler : string -> M A) : M A :=
  fun s => match body s with
           | (s', Raise (ValueError m)) => handler m s'
           | r => r
           end.

Definition set_vals (c : column) (v : value) (f : frow) : frow :=
  FRow (set_col c v (vals f)) (exclude f).

Definition set_exclude (b : bool) (f : frow) : frow := FRow (vals f) b.

(** [df.at[i, c] = v]: the frame takes any value in any entry, and [i]
    is always the label of a row of the frame. *)
Definition df_at (i : nat) (c : column) (v : value) : M unit :=
  fun s => (State (alter (set_vals c v) i (df s)) (error_messages s) (row_errors s),
            Ret tt).

(** [df.at[i, 'exclude'] = b] *)
Definition df_at_exclude (i : nat) (b : bool) : M unit :=
  fun s => (State (alter (set_exclude b) i (df s)) (error_messages s) (row_errors s),
            Ret tt).

(** [row_errors = []] *)
Definition reset_row_errors : M unit :=
  fun s => (State (df s) (error_messages s) [], Ret tt).

(** [row_errors.append(m)] *)
Definition row_errors_append (m : string) : M unit :=
  fun s => (State (df s) (error_messages s) (row_errors s ++ [m]), Ret tt).

(** [error_messages.extend(row_errors)] *)
Definition error_messages_extend : M unit :=
  fun s => (State (df s) (error_messages s ++ row_errors s) (row_errors s), Ret tt).

Definition get_row_errors : M (list string) := fun s => (s, Ret (row_errors s)).

Fixpoint for_each {A} (l : list A) (body : A -> M unit) : M unit :=
  match l with
  | [] => mret tt
  | x :: l' => body x ;; for_each l' body
  end.

Definition required_fields : list column :=
  [c_codename; c_trame; c_mass_surf; c_is_compat_interior_wall; c_mesh_height;
   c_mesh_width; c_color_names].
Definition valid_trames : list string :=
  ["T2 Ra1 M2 E2"; "T2 Ra1 M4 E2"; "T2 Ra1 M4 E3"].
Definition valid_colors : list string :=
  ["white"; "yellow"; "green"; "purple"; "red"; "blue"; "orange"; "magenta";
   "dark"; "grey"; "cyan"].

(** The three message shapes; [line] is [i + 1]. *)
Definition empty_message (line : nat) (c : column) : string :=
  "Empty value at line " +:+ str_of_nat line +:+ " for '" +:+ column_name c +:+ "'.".
Definition duplicate_message (line : nat) : string :=
  "Duplicate codename found at line " +:+ str_of_nat line +:+ ".".
Definition error_message (line : nat) (e : string) : string :=
  "Error at line " +:+ str_of_nat line +:+ ": " +:+ e.

(** [except ValueError as e: row_errors.append(f"Error at line {i+1}: {e}")] *)
Definition report (i : nat) (e : string) : M unit :=
  row_errors_append (error_message (i + 1) e).

(** The key equality of pandas' [Series.duplicated]: equal entries of one
    type, and missing keys are one key.  (The entries of a column that
    [pd.read_csv] built are of one type, NaN apart.) *)
Definition same_key (a b : cell) : bool :=
  if pd_isnull a && pd_isnull b then true
  else match a, b with
       | Str s, Str t => String.eqb s t
       | Flt x, Flt y => float_eqb x y
       | Int m, Int n => Z.eqb m n
       | Bool p, Bool q => Bool.eqb p q
       | _, _ => false
       end.

(** [col.duplicated(keep=False)]: every entry that has an equal elsewhere. *)
Definition duplicated (col : list cell) : list bool :=
  imap (fun i a =>
          existsb (fun jb => negb (Nat.eqb (fst jb) i) && same_key a (snd jb))
            (imap pair col))
    col.

(** The body of [for i, row in df.iterrows()]; [r] is the row as the
    iterator hands it out, a copy of the frame's row.  The frame has the
    default index, so the label [i] is also the position that
    [duplicated_status.iloc[i]] reads. *)
Definition loop_body (duplicated_status : list bool) (i : nat) (r : row cell) : M unit :=
  reset_row_errors ;;
  for_each required_fields (fun c =>
    if pd_isnull (get c r) then row_errors_append (empty_message (i + 1) c)
    else mret tt) ;;
  (if default false (duplicated_status !! i)
   then row_errors_append (duplicate_message (i + 1))
   else mret tt) ;;
  try_except
    (call (validate_trame (trame r) valid_trames))
    (report i) ;;
  try_except
    (v <- call (validate_mass_surf (mass_surf r)) ;;
     df_at i c_mass_surf (Cell (Flt v)))
    (report i) ;;
  try_except
    (v <- call (validate_bool (is_compat_interior_wall r)) ;;
     df_at i c_is_compat_interior_wall (Cell (Bool v)))
    (report i) ;;
  try_except
    (h <- call (validate_positive_float (mesh_height r) "mesh_height") ;;
     df_at i c_mesh_height (Cell (Flt h)) ;;
     w <- call (validate_positive_float (mesh_width r) "mesh_width") ;;
     df_at i c_mesh_width (Cell (Flt w)))
    (report i) ;;
  try_except
    (v <- call (validate_optional_int (roll_pallet r)) ;;
     df_at i c_roll_pallet (int_value v))
    (report i) ;;
  try_except
    (v <- call (convert_and_validate_colors (color_names r) valid_colors) ;;
     df_at i c_color_names (Lst v))
    (report i) ;;
  errs <- get_row_errors ;;
  match errs with
  | [] => mret tt
  | _ :: _ => error_messages_extend ;; df_at_exclude i true
  end.

Fixpoint iterrows (body : nat -> row cell -> M unit) (i : nat) (rows : list (row cell))
  : M unit :=
  match rows with
  | [] => mret tt
  | r :: rest => body i r ;; iterrows body (S i) rest
  end.

(** [df[~df['exclude']]] then [drop(columns='exclude')]: the rows kept,
    each under its original index label. *)
Definition kept_rows (fr : list frow) : list (nat * row value) :=
  omap (fun p => if exclude (snd p) then None else Some (fst p, vals (snd p)))
    (imap pair fr).

(** [ingest_and_validate_csv], from the frame that [pd.read_csv] returns. *)
Definition ingest_and_validate_csv (csv : list (row cell))
  : res (list (nat * row value) * list string) :=
  let s0 := State (map (fun r => FRow (map_row Cell r) false) csv) [] [] in
  let duplicated_status := duplicated (map codename csv) in
  match iterrows (loop_body duplicated_status) 0 csv s0 with
  | (s, Ret _) => Ret (kept_rows (df s), error_messages s)
  | (_, Raise e) => Raise e
  end.

(** ** A valid row and its typed form

    Every field validator accepts its field; [v] is the row with each
    field replaced by what its validator returned. *)
Definition coerces (r : row cell) (v : row value) : Prop :=
  exists (m : pyfloat) (b : bool) (h w : pyfloat) (p : option Z) (cs : list string),
    validate_trame (trame r) valid_trames = Ret tt
    /\ validate_mass_surf (mass_surf r) = Ret m
    /\ validate_bool (is_compat_interior_wall r) = Ret b
    /\ validate_positive_float (mesh_height r) "mesh_height" = Ret h
    /\ validate_positive_float (mesh_width r) "mesh_width" = Ret w
    /\ validate_optional_int (roll_pallet r) = Ret p
    /\ convert_and_validate_colors (color_names r) valid_colors = Ret cs
    /\ v = Row (Cell (codename r)) (Cell (trame r)) (Cell (Flt m)) (Cell (Bool b))
              (Cell (Flt h)) (Cell (Flt w))
              (int_value p) (Lst cs).

(** ** Persistence and entry point *)

(** A record of the [mesh] table. *)
Record Mesh := NewMesh {
  Mesh_codename : value;
  Mesh_trame : value;
  Mesh_mass_surf : value;
  Mesh_is_compat_interior_wall : value;
  Mesh_mesh_height : value;
  Mesh_mesh_width : value;
  Mesh_roll_pallet : value;
  Mesh_color_names : string
}.

(** What the program acts on: the lines printed and the rows of the table.
    The engine itself (its constraints, its failures) stays outside. *)
Record world := World { stdout : list string; mesh_table : list Mesh }.

Definition print (line : string) (w : world) : world :=
  World (stdout w ++ [line]) (mesh_table w).

(** [','.join(v)]: a list of strings, or a string taken character by
    character; anything else is not iterable. *)
Definition join_colors (v : value) : res string :=
  match v with
  | Lst l => Ret (join "," l)
  | Cell (Str s) => Ret (join "," (chars s))
  | _ => Raise TypeError
  end.

Definition new_mesh (r : row value) : res Mesh :=
  rbind (join_colors (color_names r)) (fun colors =>
    Ret (NewMesh (codename r) (trame r) (mass_surf r) (is_compat_interior_wall r)
           (mesh_height r) (mesh_width r) (roll_pallet r) colors)).

(** The loop of [insert_data_to_db]: [session.add] for every row. *)
Fixpoint session_add_all (rows : list (nat * row value)) (session : list Mesh)
  : res (list Mesh) :=
  match rows with
  | [] => Ret session
  | ir :: rest =>
      rbind (new_mesh (snd ir)) (fun mesh => session_add_all rest (session ++ [mesh]))
  end.

(** [insert_data_to_db]: the session is committed after the loop. *)
Definition insert_data_to_db (rows : list (nat * row value)) (w : world)
  : world * res unit :=
  match session_add_all rows [] with
  | Ret session => (World (stdout w) (mesh_table w ++ session), Ret tt)
  | Raise e => (w, Raise e)
  end.

(** [main]; the [setup_database] call before it only creates the table. *)
Definition main (csv : list (row cell)) (w : world) : world * res unit :=
  match ingest_and_validate_csv csv with
  | Raise e => (w, Raise e)
  | Ret (rows, messages) =>
      match messages with
      | _ :: _ =>
          (fold_left (fun w' message => print message w') messages
             (print "Errors encountered:" w), Ret tt)
      | [] =>
          match insert_data_to_db rows w with
          | (w', Ret _) => (print "Data ingested and validated successfully." w', Ret tt)
          | (w', Raise e) => (w', Raise e)
          end
      end
  end.

End Ingester.

Arguments cell {_}.
Arguments value {_}.
Arguments frow {_}.
Arguments state {_}.
Arguments Mesh {_}.
Arguments world {_}.

(** ** One iteration in summary

    What the checks of one iteration amount to, block by block; the
    verification below relates [loop_body] to it. *)

Section Summary.
Context `{PyFloat}.

(** The effect of a statement that returns: the messages it appends to
    [row_errors] and what it does to the entries of row [i]. *)
Definition effect : Type := list string * (row value -> row value).

Definition then_effect (a b : res effect) : res effect :=
  match a, b with
  | Raise e, _ => Raise e
  | Ret _, Raise e => Raise e
  | Ret (es1, f1), Ret (es2, f2) => Ret (es1 ++ es2, f2 ∘ f1)
  end.

Definition on_vals (f : row value -> row value) (fr : frow) : frow :=
  FRow (f (vals fr)) (exclude fr).

Definition apply_effect (i : nat) (ef : effect) (s : state) : state :=
  State (alter (on_vals (snd ef)) i (df s)) (error_messages s) (row_errors s ++ fst ef).

(** [m] has outcome [o] from every state. *)
Definition runs (i : nat) (m : M unit) (o : res effect) : Prop :=
  forall s, match o with
            | Ret ef => m s = (apply_effect i ef s, Ret tt)
            | Raise e => snd (m s) = Raise e
            end.

(** A [try] block around one validator, its value stored by [store]. *)
Definition guarded {A} (i : nat) (c : res A) (store : A -> row value -> row value)
  : res effect :=
  match c with
  | Ret v => Ret ([], store v)
  | Raise (ValueError m) => Ret ([error_message (i + 1) m], id)
  | Raise e => Raise e
  end.

(** The [try] block that validates both mesh dimensions. *)
Definition guarded_mesh (i : nat) (h w : res pyfloat) : res effect :=
  match h with
  | Ret x =>
      match w with
      | Ret y => Ret ([], set_col c_mesh_width (Cell (Flt y))
                            ∘ set_col c_mesh_height (Cell (Flt x)))
      | Raise (ValueError m) =>
          Ret ([error_message (i + 1) m], set_col c_mesh_height (Cell (Flt x)))
      | Raise e => Raise e
      end
  | Raise (ValueError m) => Ret ([error_message (i + 1) m], id)
  | Raise e => Raise e
  end.

Definition presence_messages (i : nat) (r : row cell) (cols : list column) : list string :=
  flat_map (fun c => if pd_isnull (get c r) then [empty_message (i + 1) c] else []) cols.

Definition duplicate_messages (dups : list bool) (i : nat) : list string :=
  if default false (dups !! i) then [duplicate_message (i + 1)] else [].

(** The outcome of the checks of one iteration, block after block. *)
Definition row_blocks (dups : list bool) (i : nat) (r : row cell) : list (res effect) :=
  [ Ret (presence_messages i r required_fields, id);
    Ret (duplicate_messages dups i, id);
    guarded i (validate_trame (trame r) valid_trames) (fun _ => id);
    guarded i (validate_mass_surf (mass_surf r))
      (fun v => set_col c_mass_surf (Cell (Flt v)));
    guarded i (validate_bool (is_compat_interior_wall r))
      (fun v => set_col c_is_compat_interior_wall (Cell (Bool v)));
    guarded_mesh i (validate_positive_float (mesh_height r) "mesh_height")
      (validate_positive_float (mesh_width r) "mesh_width");
    guarded i (validate_optional_int (roll_pallet r))
      (fun v => set_col c_roll_pallet (int_value v));
    guarded i (convert_and_validate_colors (color_names r) valid_colors)
      (fun v => set_col c_color_names (Lst v)) ].

Definition row_outcome (dups : list bool) (i : nat) (r : row cell) : res effect :=
  foldr then_effect (Ret ([], id)) (row_blocks dups i r).

(** Statements in sequence, then a continuation. *)
Fixpoint chain {B} (ps : list (M unit)) (k : M B) : M B :=
  match ps with
  | [] => k
  | p :: ps' => mbind p (fun _ => chain ps' k)
  end.

(** The row after an iteration with effect [ef]. *)
Definition finish (ef : effect) (fr : frow) : frow :=
  FRow (snd ef (vals fr)) (match fst ef with [] => exclude fr | _ :: _ => true end).

(** The checks of one iteration, as [loop_body] runs them. *)
Definition row_statements (dups : list bool) (i : nat) (r : row cell) : list (M unit) :=
    [ for_each required_fields (fun c =>
        if pd_isnull (get c r) then row_errors_append (empty_message (i + 1) c)
        else mret tt);
      (if default false (dups !! i)
       then row_errors_append (duplicate_message (i + 1)) else mret tt);
      try_except (call (validate_trame (trame r) valid_trames)) (report i);
      try_except
        (mbind (call (validate_mass_surf (mass_surf r)))
           (fun v => df_at i c_mass_surf (Cell (Flt v)))) (report i);
      try_except
        (mbind (call (validate_bool (is_compat_interior_wall r)))
           (fun v => df_at i c_is_compat_interior_wall (Cell (Bool v)))) (report i);
      try_except
        (mbind (call (validate_positive_float (mesh_height r) "mesh_height")) (fun x =>
         mbind (df_at i c_mesh_height (Cell (Flt x))) (fun _ =>
         mbind (call (validate_positive_float (mesh_width r) "mesh_width"))
           (fun y => df_at i c_mesh_width (Cell (Flt y))))))
        (report i);
      try_except
        (mbind (call (validate_optional_int (roll_pallet r)))
           (fun v => df_at i c_roll_pallet (int_value v))) (report i);
      try_except
        (mbind (call (convert_and_validate_colors (color_names r) valid_colors))
           (fun v => df_at i c_color_names (Lst v))) (report i) ].

Section Rows.
Variable dups : list bool.

(** The messages of row [i], when its iteration returns. *)
Definition row_messages (i : nat) (r : row cell) : list string :=
  match row_outcome dups i r with
  | Ret ef => fst ef
  | Raise _ => []
  end.

Definition finish_row (i : nat) (r : row cell) (fr : frow) : frow :=
  match row_outcome dups i r with
  | Ret ef => finish ef fr
  | Raise _ => fr
  end.

Fixpoint batch_messages (i : nat) (rows : list (row cell)) : list string :=
  match rows with
  | [] => []
  | r :: rest => row_messages i r ++ batch_messages (S i) rest
  end.

Definition returns (i : nat) (r : row cell) : Prop :=
  exists ef, row_outcome dups i r = Ret ef.

End Rows.

(** The frame as [ingest_and_validate_csv] first sets it up. *)
Definition initial_row (r : row cell) : frow := FRow (map_row Cell r) false.



End Summary.

(** ** A decimal reading of Python floats

    A float is kept as the decimal it was written as: exact where binary64
    and [repr] round-trip the literal (up to 15 significant digits, within
    the exponent range), which covers every value used below. *)
Module Dec.

Inductive t :=
| NaN
| Inf (neg : bool)
| Fin (neg : bool) (m : N) (e : Z).   (* (-1)^neg * m * 10^e *)

(** [s] up to the first character satisfying [p], and what follows it. *)
Fixpoint cut (p : ascii -> bool) (s : string) : string * option string :=
  match s with
  | EmptyString => (EmptyString, None)
  | String c r =>
      if p c then (EmptyString, Some r)
      else let '(a, b) := cut p r in (String c a, b)
  end.

Definition is_e (c : ascii) : bool := Ascii.eqb c "e" || Ascii.eqb c "E".
Definition is_dot (c : ascii) : bool := Ascii.eqb c ".".

(** [digits] "." [digits], one side at least: the digits as a number and
    how many of them follow the point. *)
Definition mantissa (s : string) : option (N * nat) :=
  match cut is_dot s with
  | (ip, None) =>
      match digits ip with Some (n, _) => Some (n, 0) | None => None end
  | (EmptyString, Some fp) => digits fp
  | (ip, Some EmptyString) =>
      match digits ip with Some (n, _) => Some (n, 0) | None => None end
  | (ip, Some fp) =>
      match digits ip, digits fp with
      | Some (n, _), Some (f, k) => Some (n * 10 ^ N.of_nat k + f, k)%N
      | _, _ => None
      end
  end.

Definition exponent (s : option string) : option Z :=
  match s with
  | None => Some 0%Z
  | Some es =>
      let '(neg, r) := take_sign es in
      match digits r with
      | Some (x, _) => Some (if neg then (- Z.of_N x)%Z else Z.of_N x)
      | None => None
      end
  end.

Definition of_str (s : string) : option t :=
  let '(neg, r) := take_sign (strip s) in
  let lr := lower r in
  if String.eqb lr "inf" || String.eqb lr "infinity" then Some (Inf neg)
  else if String.eqb lr "nan" then Some NaN
  else
    let '(ms, es) := cut is_e r in
    match mantissa ms, exponent es with
    | Some (m, k), Some x => Some (Fin neg m (x - Z.of_nat k))
    | _, _ => None
    end.

Definition of_int (n : Z) : t := Fin (n <? 0)%Z (Z.abs_N n) 0.

Definition neg (x : t) : bool :=
  match x with
  | NaN => false
  | Inf b => b
  | Fin b m _ => b && negb (m =? 0)%N
  end.

Definition isnan (x : t) : bool :=
  match x with NaN => true | _ => false end.

Definition trunc (x : t) : option Z :=
  match x with
  | Fin b m e =>
      let a := if (0 <=? e)%Z then (m * 10 ^ Z.to_N e)%N else (m / 10 ^ Z.to_N (- e))%N in
      Some (if b then (- Z.of_N a)%Z else Z.of_N a)
  | _ => None
  end.

Definition eqb (x y : t) : bool :=
  match x, y with
  | Inf a, Inf b => Bool.eqb a b
  | Fin a m e, Fin b n f =>
      let g := Z.min e f in
      let p := (m * 10 ^ Z.to_N (e - g))%N in
      let q := (n * 10 ^ Z.to_N (f - g))%N in
      (p =? q)%N && ((p =? 0)%N || Bool.eqb a b)
  | _, _ => false
  end.

Fixpoint zeros (k : nat) : string :=
  match k with
  | O => EmptyString
  | S k' => String "0" (zeros k')
  end.

(** [s] without its trailing zeros. *)
Fixpoint rstrip0 (s : string) : string :=
  match s with
  | EmptyString => EmptyString
  | String c s' =>
      match rstrip0 s' with
      | EmptyString => if Ascii.eqb c "0" then EmptyString else String c EmptyString
      | r => String c r
      end
  end.

(** The exponent of the scientific form: a sign and two digits at least. *)
Definition repr_exp (x : Z) : string :=
  let a := str_of_nat (Z.abs_nat x) in
  (if (x <? 0)%Z then "-" else "+")
  +:+ (if (String.length a <? 2)%nat then "0" +:+ a else a).

(** [repr] of a finite non-zero value with significant digits [ds] and the
    point after the first [decpt] of them. *)
Definition repr_digits (ds : string) (decpt : Z) : string :=
  let n := Z.of_nat (String.length ds) in
  if ((-4 <? decpt) && (decpt <=? 16))%Z then
    if (decpt <=? 0)%Z then "0." +:+ zeros (Z.to_nat (- decpt)) +:+ ds
    else if (n <=? decpt)%Z then ds +:+ zeros (Z.to_nat (decpt - n)) +:+ ".0"
         else substring 0 (Z.to_nat decpt) ds +:+ "."
              +:+ substring (Z.to_nat decpt) (Z.to_nat (n - decpt)) ds
  else
    substring 0 1 ds
    +:+ (if (1 <? n)%Z then "." +:+ substring 1 (Z.to_nat (n - 1)) ds else EmptyString)
    +:+ "e" +:+ repr_exp (decpt - 1).

Definition repr (x : t) : string :=
  match x with
  | NaN => "nan"
  | Inf b => if b then "-inf" else "inf"
  | Fin b m e =>
      (if b then "-" else EmptyString)
      +:+ (if (m =? 0)%N then "0.0"
           else
             let all := NilZero.string_of_uint (N.to_uint m) in
             let ds := rstrip0 all in
             repr_digits ds (Z.of_nat (String.length all) + e))
  end.

#[global, refine] Instance float : PyFloat := {|
  pyfloat := t;
  float_of_str := of_str;
  float_of_int := of_int;
  float_neg := neg;
  float_isnan := isnan;
  float_repr := repr;
  float_trunc := trunc;
  float_eqb := eqb
|}.
Proof.
  intros [|a|a m e] [|b|b n f]; simpl; try reflexivity.
  - destruct a, b; reflexivity.
  - rewrite (Z.min_comm f e).
    set (p := (m * _)%N). set (q := (n * _)%N).
    rewrite (N.eqb_sym q p).
    destruct (N.eqb_spec p q) as [->|]; [|reflexivity].
    destruct a, b; reflexivity.
Defined.

End Dec.

(** ** Sample rows

    Frames as [pd.read_csv] types them: a column whose entries all parse
    as numbers holds floats, any other column holds strings, and a missing
    entry is NaN in both. *)

(** A missing entry. *)
Definition nan : cell := Flt Dec.NaN.

(** 12.5, 2.0, 1.0, ... *)
Definition f12_5 : Dec.t := Dec.Fin false 125 (-1).
Definition f2_0 : Dec.t := Dec.Fin false 20 (-1).
Definition f1_0 : Dec.t := Dec.Fin false 10 (-1).
Definition f0_0 : Dec.t := Dec.Fin false 0 (-1).
Definition f1_5 : Dec.t := Dec.Fin false 15 (-1).
Definition f3_0 : Dec.t := Dec.Fin false 30 (-1).
Definition f12_0 : Dec.t := Dec.Fin false 120 (-1).
Definition minus_3_0 : Dec.t := Dec.Fin true 30 (-1).

(** Two valid rows of a frame whose numeric columns are numeric. *)
Definition row_A1 : row cell :=
  Row (Str "A1") (Str "T2 Ra1 M2 E2") (Flt f12_5) (Str "vrai") (Flt f2_0)
    (Flt f1_0) nan (Str "white,blue").

Definition row_B2 : row cell :=
  Row (Str "B2") (Str "T2 Ra1 M4 E3") (Flt f0_0) (Str "FAUX") (Flt f1_5)
    (Flt f3_0) (Flt f12_0) (Str "red, grey").

(** The row A1 in a frame whose numeric columns stayed text, because of
    the entries of a row such as [row_Z9]. *)
Definition text_A1 : row cell :=
  Row (Str "A1") (Str "T2 Ra1 M2 E2") (Str "12.5") (Str "vrai") (Str "2.0")
    (Str "1.0") nan (Str "white,blue").

Definition row_Z9 : row cell :=
  Row (Str "Z9") (Str "T9") (Str "heavy") (Str "peut-etre") (Str "tall")
    (Str "wide") (Str "many") (Str "white,pink").

(** What [row_Z9] is reported for, as the second row of a frame. *)
Definition report_Z9 : list string :=
  ["Error at line 2: Value T9 for trame is not valid.";
   "Error at line 2: mass_surf must be a float. Got heavy";
   "Error at line 2: Expected boolean value. Got peut-etre";
   "Error at line 2: mesh_height must be a float. Got tall";
   "Error at line 2: Expected integer value. Got many";
   "Error at line 2: Invalid color names in the list. Got white,pink"].

(** [row_A1] (and [text_A1]) and [row_B2] once validated. *)
Definition typed_A1 : row value :=
  Row (Cell (Str "A1")) (Cell (Str "T2 Ra1 M2 E2")) (Cell (Flt f12_5))
    (Cell (Bool true)) (Cell (Flt f2_0)) (Cell (Flt f1_0)) PyNone
    (Lst ["white"; "blue"]).

Definition typed_B2 : row value :=
  Row (Cell (Str "B2")) (Cell (Str "T2 Ra1 M4 E3")) (Cell (Flt f0_0))
    (Cell (Bool false)) (Cell (Flt f1_5)) (Cell (Flt f3_0)) (Cell (Int 12))
    (Lst ["red"; " grey"]).

(** * Verification *)

(** ** What one iteration does to the state *)

Section Effects.
Context `{PyFloat}.

Lemma on_vals_id (f : row value -> row value) (l : list frow) i :
  (forall v, f v = v) -> alter (on_vals f) i l = l.
Proof.
  intros Hf. apply list_alter_id. intros [v b]. unfold on_vals; simpl. by rewrite Hf.
Qed.

Lemma apply_effect_then i es1 f1 es2 f2 s :
  apply_effect i (es2, f2) (apply_effect i (es1, f1) s)
  = apply_effect i (es1 ++ es2, f2 ∘ f1) s.
Proof.
  unfold apply_effect; simpl. rewrite <- app_assoc. f_equal.
  by rewrite list_alter_alter_eq.
Qed.

Lemma runs_chain {B} i ps os (k : M B) s :
  Forall2 (runs i) ps os ->
  match foldr then_effect (Ret ([], id)) os with
  | Ret ef => chain ps k s = k (apply_effect i ef s)
  | Raise e => snd (chain ps k s) = Raise e
  end.
Proof.
  intros Hall. revert s. induction Hall as [|p o ps os Hp _ IH]; intros s; simpl.
  - unfold apply_effect; simpl. rewrite app_nil_r, on_vals_id by done. by destruct s.
  - specialize (Hp s). unfold mbind. destruct o as [[es1 f1]|e]; simpl.
    + rewrite Hp. specialize (IH (apply_effect i (es1, f1) s)).
      destruct (foldr then_effect (Ret ([], id)) os) as [[es2 f2]|e]; simpl.
      * by rewrite IH, apply_effect_then.
      * done.
    + destruct (p s) as [s' [|e']]; simpl in *; congruence.
Qed.

Lemma runs_append i m : runs i (row_errors_append m) (Ret ([m], id)).
Proof.
  intros s. unfold row_errors_append, apply_effect; simpl.
  by rewrite on_vals_id.
Qed.

Lemma runs_skip i : runs i (mret tt) (Ret ([], id)).
Proof.
  intros s. unfold mret, apply_effect; simpl.
  rewrite app_nil_r, on_vals_id by done. by destruct s.
Qed.

Lemma runs_presence i r cols :
  runs i (for_each cols (fun c =>
            if pd_isnull (get c r) then row_errors_append (empty_message (i + 1) c)
            else mret tt))
    (Ret (presence_messages i r cols, id)).
Proof.
  induction cols as [|c cols IH]; simpl.
  - apply runs_skip.
  - intros s. unfold mbind.
    destruct (pd_isnull (get c r)).
    + rewrite (runs_append i _ s), (IH _), apply_effect_then. done.
    + rewrite (runs_skip i s), (IH _), apply_effect_then. done.
Qed.

Lemma runs_duplicate dups i :
  runs i (if default false (dups !! i)
          then row_errors_append (duplicate_message (i + 1)) else mret tt)
    (Ret (duplicate_messages dups i, id)).
Proof.
  unfold duplicate_messages. destruct (default false (dups !! i)).
  - apply runs_append.
  - apply runs_skip.
Qed.

Lemma runs_df_at i c v : runs i (df_at i c v) (Ret ([], set_col c v)).
Proof.
  intros s. unfold df_at, apply_effect; simpl. by rewrite app_nil_r.
Qed.

Lemma runs_guarded_check i (c : res unit) :
  runs i (try_except (call c) (report i)) (guarded i c (fun _ => id)).
Proof.
  intros s. unfold try_except, call.
  destruct c as [[]|[m| | |]]; simpl; try done.
  - apply (runs_skip i s).
  - apply (runs_append i _ s).
Qed.

Lemma runs_guarded {A} i (c : res A) col (inj : A -> value) :
  runs i (try_except (mbind (call c) (fun v => df_at i col (inj v))) (report i))
    (guarded i c (fun v => set_col col (inj v))).
Proof.
  intros s. unfold try_except, mbind, call.
  destruct c as [v|[m| | |]]; simpl; try done.
  - apply (runs_df_at i col (inj v) s).
  - apply (runs_append i _ s).
Qed.

Lemma runs_guarded_mesh i (h w : res pyfloat) :
  runs i
    (try_except
       (mbind (call h) (fun x =>
        mbind (df_at i c_mesh_height (Cell (Flt x))) (fun _ =>
        mbind (call w) (fun y => df_at i c_mesh_width (Cell (Flt y))))))
       (report i))
    (guarded_mesh i h w).
Proof.
  intros s. unfold try_except, mbind, call.
  destruct h as [x|[m| | |]]; simpl; try done.
  - destruct w as [y|[m| | |]]; simpl; try done.
    unfold apply_effect; simpl. rewrite app_nil_r. by rewrite list_alter_alter_eq.
  - apply (runs_append i _ s).
Qed.

Lemma row_blocks_run dups i r :
  Forall2 (runs i) (row_statements dups i r) (row_blocks dups i r).
Proof.
  unfold row_statements, row_blocks.
  repeat (apply Forall2_cons; split);
    [ apply runs_presence | apply runs_duplicate | apply runs_guarded_check
    | apply runs_guarded | apply runs_guarded | apply runs_guarded_mesh
    | apply (runs_guarded i _ c_roll_pallet int_value) | apply runs_guarded
    | apply Forall2_nil_2 ].
Qed.

(** One iteration, in closed form. *)
Lemma loop_body_run dups i r s :
  match row_outcome dups i r with
  | Ret ef =>
      loop_body dups i r s
      = (State (alter (finish ef) i (df s)) (error_messages s ++ fst ef) (fst ef), Ret tt)
  | Raise e => snd (loop_body dups i r s) = Raise e
  end.
Proof.
  pose proof (row_blocks_run dups i r) as Hall.
  set (s0 := State (df s) (error_messages s) []).
  set (final := mbind get_row_errors (fun errs =>
                  match errs with
                  | [] => mret tt
                  | _ :: _ => mbind error_messages_extend (fun _ => df_at_exclude i true)
                  end)).
  pose proof (runs_chain i _ _ final s0 Hall) as Hrun.
  fold (row_outcome dups i r) in Hrun.
  change (loop_body dups i r s) with (chain (row_statements dups i r) final s0).
  destruct (row_outcome dups i r) as [[es f]|e]; [|exact Hrun].
  rewrite Hrun. unfold final, mbind, get_row_errors, apply_effect, s0; simpl.
  destruct es as [|m es]; simpl.
  - unfold mret. rewrite app_nil_r. done.
  - unfold error_messages_extend, df_at_exclude; simpl.
    by rewrite list_alter_alter_eq.
Qed.

End Effects.

(** ** The whole loop *)

Section Batch.
Context `{PyFloat}.
Variable dups : list bool.

Lemma iterrows_ret rows : forall i s s' u,
  iterrows (loop_body dups) i rows s = (s', Ret u) ->
  (forall k r, rows !! k = Some r -> returns dups (i + k) r)
  /\ error_messages s' = error_messages s ++ batch_messages dups i rows
  /\ (forall j, df s' !! j =
        if decide (i <= j)
        then match rows !! (j - i) with
             | Some r => finish_row dups j r <$> df s !! j
             | None => df s !! j
             end
        else df s !! j).
Proof.
  induction rows as [|r rest IH]; intros i s s' u Hrun; simpl in Hrun.
  - unfold mret in Hrun. injection Hrun as <- _. split; [|split].
    + intros k r Hk. by rewrite lookup_nil in Hk.
    + simpl. by rewrite app_nil_r.
    + intros j. rewrite lookup_nil. by case_decide.
  - unfold mbind in Hrun. pose proof (loop_body_run dups i r s) as Hbody.
    destruct (row_outcome dups i r) as [ef|e] eqn:Ho.
    2:{ destruct (loop_body dups i r s) as [s1 [|e1]]; simpl in Hbody; congruence. }
    rewrite Hbody in Hrun. apply IH in Hrun as (Hret & Hmsg & Hdf). simpl in *.
    split; [|split].
    + intros [|k] r' Hk; simpl in Hk.
      * injection Hk as <-. rewrite Nat.add_0_r. by exists ef.
      * replace (i + S k) with (S i + k) by lia. by apply Hret.
    + rewrite Hmsg, <- app_assoc. unfold row_messages. by rewrite Ho.
    + intros j. rewrite Hdf. clear Hdf.
      destruct (decide (j = i)) as [->|Hne].
      * rewrite decide_False by lia. rewrite decide_True by lia.
        rewrite Nat.sub_diag. simpl. rewrite list_lookup_alter_eq.
        unfold finish_row. by rewrite Ho.
      * destruct (decide (S i <= j)).
        -- rewrite decide_True by lia.
           replace (j - i) with (S (j - S i)) by lia. simpl.
           by rewrite list_lookup_alter_ne by lia.
        -- rewrite decide_False by lia. by rewrite list_lookup_alter_ne by lia.
Qed.


Lemma batch_messages_lookup rows : forall i k r m,
  rows !! k = Some r -> m ∈ row_messages dups (i + k) r -> m ∈ batch_messages dups i rows.
Proof.
  induction rows as [|r0 rest IH]; intros i [|k] r m Hk Hm; simpl in *; try done.
  - injection Hk as ->. rewrite Nat.add_0_r in Hm. apply elem_of_app. by left.
  - apply elem_of_app. right. apply (IH (S i) k r); [done|].
    by replace (S i + k) with (i + S k) by lia.
Qed.


End Batch.

Section Pipeline.
Context `{PyFloat}.

Lemma lookup_map {A B} (f : A -> B) (l : list A) i : map f l !! i = f <$> l !! i.
Proof. revert i. induction l as [|x l IH]; intros [|i]; simpl; auto. Qed.

(** [ingest_and_validate_csv] returns exactly when every iteration does;
    it then reports every row's messages in row order and keeps the rows
    that have none. *)
Lemma ingest_returns csv rows messages :
  let dups := duplicated (map codename csv) in
  ingest_and_validate_csv csv = Ret (rows, messages) ->
  (forall i r, csv !! i = Some r -> returns dups i r)
  /\ messages = batch_messages dups 0 csv
  /\ rows = kept_rows (imap (fun i r => finish_row dups i r (initial_row r)) csv).
Proof.
  intros dups Hrun. unfold ingest_and_validate_csv in Hrun. fold dups in Hrun.
  destruct (iterrows _ 0 csv _) as [s' [u|e]] eqn:Hloop; [|done].
  injection Hrun as <- <-.
  apply iterrows_ret in Hloop as (Hret & Hmsg & Hdf).
  split; [exact Hret|]. split; [exact Hmsg|]. f_equal.
  apply list_eq. intros j. rewrite Hdf, decide_True by lia. simpl.
  rewrite Nat.sub_0_r, list_lookup_imap, lookup_map.
  by destruct (csv !! j).
Qed.


Lemma kept_rows_elem (fr : list frow) i v :
  (i, v) ∈ kept_rows fr <-> exists f, fr !! i = Some f /\ exclude f = false /\ v = vals f.
Proof.
  unfold kept_rows. rewrite list_elem_of_omap. split.
  - intros ([j f] & Hin & Hsome). simpl in Hsome.
    apply list_elem_of_lookup in Hin as [k Hk].
    apply list_lookup_imap_Some in Hk as (f' & Hf & Heq).
    injection Heq as -> ->.
    destruct (exclude f') eqn:Hex; [done|]. injection Hsome as <- <-. eauto.
  - intros (f & Hf & Hex & ->). exists (i, f). split.
    + apply list_elem_of_lookup. exists i. apply list_lookup_imap_Some. eauto.
    + simpl. by rewrite Hex.
Qed.

End Pipeline.

(** ** Duplicates *)

Section Duplicates.
Context `{PyFloat}.




Lemma duplicated_false (col : list cell) i j a b :
  default false (duplicated col !! i) = false ->
  col !! i = Some a -> col !! j = Some b -> i <> j -> same_key a b = false.
Proof.
  intros Hd Hi Hj Hne. unfold duplicated in Hd.
  rewrite list_lookup_imap, Hi in Hd. simpl in Hd.
  destruct (same_key a b) eqn:Hkey; [|done].
  assert (existsb (fun jb => negb (Nat.eqb (fst jb) i) && same_key a (snd jb))
            (imap pair col) = true) as Hex; [|congruence].
  apply existsb_exists. exists (j, b). split.
  - apply list_elem_of_In, list_elem_of_lookup. exists j.
    by rewrite list_lookup_imap, Hj.
  - simpl. rewrite Hkey, andb_true_r. apply negb_true_iff, Nat.eqb_neq. lia.
Qed.

End Duplicates.

(** ** What an iteration that returns has done *)

Section Outcome.
Context `{PyFloat}.

Lemma row_outcome_inv dups i r ef :
  row_outcome dups i r = Ret ef ->
  exists e3 e4 e5 e6 e7 e8 : effect,
    guarded i (validate_trame (trame r) valid_trames) (fun _ => id) = Ret e3
    /\ guarded i (validate_mass_surf (mass_surf r))
         (fun v => set_col c_mass_surf (Cell (Flt v))) = Ret e4
    /\ guarded i (validate_bool (is_compat_interior_wall r))
         (fun v => set_col c_is_compat_interior_wall (Cell (Bool v))) = Ret e5
    /\ guarded_mesh i (validate_positive_float (mesh_height r) "mesh_height")
         (validate_positive_float (mesh_width r) "mesh_width") = Ret e6
    /\ guarded i (validate_optional_int (roll_pallet r))
         (fun v => set_col c_roll_pallet (int_value v)) = Ret e7
    /\ guarded i (convert_and_validate_colors (color_names r) valid_colors)
         (fun v => set_col c_color_names (Lst v)) = Ret e8
    /\ fst ef = presence_messages i r required_fields ++ duplicate_messages dups i
                ++ fst e3 ++ fst e4 ++ fst e5 ++ fst e6 ++ fst e7 ++ fst e8
    /\ forall v, snd ef v = snd e8 (snd e7 (snd e6 (snd e5 (snd e4 (snd e3 v))))).
Proof.
  unfold row_outcome, row_blocks. simpl.
  destruct (guarded i (validate_trame _ _) _) as [[es3 f3]|?]; [|done].
  destruct (guarded i (validate_mass_surf _) _) as [[es4 f4]|?]; [|done].
  destruct (guarded i (validate_bool _) _) as [[es5 f5]|?]; [|done].
  destruct (guarded_mesh i _ _) as [[es6 f6]|?]; [|done].
  destruct (guarded i (validate_optional_int _) _) as [[es7 f7]|?]; [|done].
  destruct (guarded i (convert_and_validate_colors _ _) _) as [[es8 f8]|?]; [|done].
  simpl. intros [= <-].
  exists (es3, f3), (es4, f4), (es5, f5), (es6, f6), (es7, f7), (es8, f8).
  simpl. rewrite (app_nil_r es8). repeat split; done.
Qed.

Lemma guarded_codename {A} i (c : res A) col (inj : A -> value) ef v :
  col <> c_codename ->
  guarded i c (fun x => set_col col (inj x)) = Ret ef ->
  codename (snd ef v) = codename v.
Proof.
  intros Hcol. destruct c as [x|[m| | |]]; simpl; intros [= <-]; simpl; try done.
  by destruct col.
Qed.

Lemma row_outcome_codename dups i r ef v :
  row_outcome dups i r = Ret ef -> codename (snd ef v) = codename v.
Proof.
  intros Ho. apply row_outcome_inv in Ho
    as (e3 & e4 & e5 & e6 & e7 & e8 & H3 & H4 & H5 & H6 & H7 & H8 & _ & Hf).
  rewrite Hf.
  rewrite (guarded_codename i _ c_color_names _ e8 _ ltac:(done) H8).
  rewrite (guarded_codename i _ c_roll_pallet _ e7 _ ltac:(done) H7).
  assert (forall u, codename (snd e6 u) = codename u) as ->.
  { intros u. revert H6. unfold guarded_mesh.
    destruct (validate_positive_float (mesh_height r) _) as [x|[m| | |]]; try done.
    - destruct (validate_positive_float (mesh_width r) _) as [y|[m| | |]]; try done;
        by intros [= <-].
    - by intros [= <-]. }
  rewrite (guarded_codename i _ c_is_compat_interior_wall _ e5 _ ltac:(done) H5).
  rewrite (guarded_codename i _ c_mass_surf _ e4 _ ltac:(done) H4).
  revert H3. destruct (validate_trame _ _) as [[]|[m| | |]]; simpl; try done;
    by intros [= <-].
Qed.


Lemma row_outcome_presence dups i r ef c :
  row_outcome dups i r = Ret ef ->
  c ∈ required_fields -> pd_isnull (get c r) = true ->
  empty_message (i + 1) c ∈ fst ef.
Proof.
  intros Ho Hc Hnull. apply row_outcome_inv in Ho
    as (e3 & e4 & e5 & e6 & e7 & e8 & _ & _ & _ & _ & _ & _ & -> & _).
  apply elem_of_app. left. unfold presence_messages.
  apply list_elem_of_In, in_flat_map. exists c. split.
  - by apply list_elem_of_In.
  - rewrite Hnull. by left.
Qed.


Lemma row_outcome_not_duplicate dups i r f :
  row_outcome dups i r = Ret ([], f) -> default false (dups !! i) = false.
Proof.
  intros Ho. apply row_outcome_inv in Ho
    as (e3 & e4 & e5 & e6 & e7 & e8 & _ & _ & _ & _ & _ & _ & Hes & _).
  simpl in Hes. symmetry in Hes. apply app_eq_nil in Hes as [_ Hes].
  apply app_eq_nil in Hes as [Hes _]. unfold duplicate_messages in Hes.
  by destruct (default false (dups !! i)).
Qed.

End Outcome.

(** ** The batch result *)

Section Result.
Context `{PyFloat}.
Variables (csv : list (row cell)) (rows : list (nat * row value))
  (messages : list string).
Hypothesis Hrun : ingest_and_validate_csv csv = Ret (rows, messages).

Let dups := duplicated (map codename csv).

Lemma row_returns i r : csv !! i = Some r -> exists ef, row_outcome dups i r = Ret ef.
Proof. intros Hi. by apply (ingest_returns _ _ _ Hrun). Qed.

Lemma row_reported i r ef m :
  csv !! i = Some r -> row_outcome dups i r = Ret ef -> m ∈ fst ef -> m ∈ messages.
Proof.
  intros Hi Ho Hm. destruct (ingest_returns _ _ _ Hrun) as (_ & -> & _).
  apply (batch_messages_lookup _ csv 0 i r); [done|].
  unfold row_messages. change (0 + i) with i. fold dups. by rewrite Ho.
Qed.

Lemma row_kept i v :
  (i, v) ∈ rows <->
  exists r f, csv !! i = Some r /\ row_outcome dups i r = Ret ([], f)
              /\ v = f (map_row Cell r).
Proof.
  destruct (ingest_returns _ _ _ Hrun) as (Hret & _ & ->). fold dups in Hret |- *.
  rewrite kept_rows_elem. split.
  - intros (fr & Hfr & Hex & ->).
    apply list_lookup_imap_Some in Hfr as (r & Hr & ->).
    destruct (Hret i r Hr) as [[es f] Ho]. unfold finish_row in *. rewrite Ho in *.
    simpl in *. destruct es; [|done]. by exists r, f.
  - intros (r & f & Hr & Ho & ->). exists (finish_row dups i r (initial_row r)).
    split; [|unfold finish_row; by rewrite Ho].
    apply list_lookup_imap_Some. eauto.
Qed.

Lemma row_with_message_dropped i r ef m v :
  csv !! i = Some r -> row_outcome dups i r = Ret ef -> m ∈ fst ef -> (i, v) ∉ rows.
Proof.
  intros Hi Ho Hm Hin. apply row_kept in Hin as (r' & f & Hi' & Ho' & _).
  assert (r' = r) as -> by congruence. rewrite Ho in Ho'. injection Ho' as ->.
  simpl in Hm. by apply elem_of_nil in Hm.
Qed.


Lemma missing_field_reported i r c :
  csv !! i = Some r -> c ∈ required_fields -> pd_isnull (get c r) = true ->
  empty_message (i + 1) c ∈ messages /\ forall v, (i, v) ∉ rows.
Proof.
  intros Hi Hc Hnull. destruct (row_returns i r Hi) as [ef Ho].
  pose proof (row_outcome_presence dups i r ef c Ho Hc Hnull) as Hm.
  split; [by apply (row_reported i r ef)|].
  intros v. by apply (row_with_message_dropped i r ef (empty_message (i + 1) c) v).
Qed.

End Result.

(** ** Rows kept, in order *)

Section Kept.
Context `{PyFloat}.

Lemma kept_rows_from (fr : list frow) : forall i,
  let labels :=
    (omap (fun p : nat * frow =>
             if exclude (snd p) then None else Some (fst p, vals (snd p)))
       (imap (fun k x => (i + k, x)) fr)).*1 in
  StronglySorted lt labels /\ Forall (le i) labels.
Proof.
  induction fr as [|x fr IH]; intros i; simpl.
  - split; constructor.
  - rewrite (imap_ext _ (fun k y => (S i + k, y))) by (intros; simpl; f_equal; lia).
    destruct (IH (S i)) as [Hs Hle]. clear IH.
    assert (Forall (le i) ((omap (fun p : nat * frow =>
               if exclude (snd p) then None else Some (fst p, vals (snd p)))
               (imap (fun k y => (S i + k, y)) fr)).*1)) as Hle'.
    { eapply Forall_impl; [exact Hle|]. simpl. intros; lia. }
    destruct (exclude x); simpl; [done|]. rewrite Nat.add_0_r. split.
    + constructor; [done|]. eapply Forall_impl; [exact Hle|]. simpl. intros; lia.
    + constructor; [lia|done].
Qed.

Lemma kept_rows_sorted (fr : list frow) : StronglySorted lt (kept_rows fr).*1.
Proof. apply (kept_rows_from fr 0). Qed.

Lemma sorted_lookup_lt (l : list nat) : forall p q a b,
  StronglySorted lt l -> l !! p = Some a -> l !! q = Some b -> p < q -> a < b.
Proof.
  induction l as [|x l IH]; intros p q a b Hs Hp Hq Hlt; [done|].
  apply StronglySorted_inv in Hs as [Hs Hall].
  destruct q as [|q]; [lia|]. simpl in Hq. destruct p as [|p]; simpl in Hp.
  - injection Hp as ->. rewrite Forall_forall in Hall. apply Hall.
    by apply list_elem_of_lookup_2 with q.
  - apply (IH p q); auto with lia.
Qed.

Lemma sorted_lookup_ne (l : list nat) p q a b :
  StronglySorted lt l -> l !! p = Some a -> l !! q = Some b -> p <> q -> a <> b.
Proof.
  intros Hs Hp Hq Hne. destruct (decide (p < q)).
  - pose proof (sorted_lookup_lt l p q a b Hs Hp Hq). lia.
  - pose proof (sorted_lookup_lt l q p b a Hs Hq Hp). lia.
Qed.

Lemma ingest_sorted csv rows messages :
  ingest_and_validate_csv csv = Ret (rows, messages) -> StronglySorted lt rows.*1.
Proof.
  intros Hrun. destruct (ingest_returns _ _ _ Hrun) as (_ & _ & ->).
  apply kept_rows_sorted.
Qed.

End Kept.

(** ** Strings *)

Lemma split_cons sep s : exists h t, split sep s = h :: t.
Proof.
  induction s as [|c s (h & t & IH)]; simpl; [by eauto|].
  destruct (Ascii.eqb c sep); [by eauto|]. rewrite IH. eauto.
Qed.

Lemma join_split s : join "," (split "," s) = s.
Proof.
  induction s as [|c s IH]; simpl; [done|].
  destruct (split_cons "," s) as (h & t & Hs). rewrite Hs in IH |- *.
  destruct (Ascii.eqb_spec c ",") as [->|_].
  - change (join "," (EmptyString :: h :: t)) with (String "," (join "," (h :: t))).
    by rewrite IH.
  - destruct t as [|x t].
    + simpl in *. by rewrite IH.
    + change (join "," (String c h :: x :: t))
        with (String c (h +:+ "," +:+ join "," (x :: t))).
      change (join "," (h :: x :: t)) with (h +:+ "," +:+ join "," (x :: t)) in IH.
      by rewrite IH.
Qed.



(** ** Persistence *)

Section Sink.
Context `{PyFloat}.

Lemma print_all (ms : list string) : forall w,
  fold_left (fun w' message => print message w') ms w
  = World (stdout w ++ ms) (mesh_table w).
Proof.
  induction ms as [|m ms IH]; intros w; simpl.
  - rewrite app_nil_r. by destruct w.
  - rewrite IH. simpl. by rewrite <- app_assoc.
Qed.


End Sink.

(** ** Valid rows *)

Section Valid.
Context `{PyFloat}.




End Valid.

(** ** When the pipeline returns *)

Section Totality.
Context `{PyFloat}.












End Totality.

(** * The claims *)

Section Claims.
Context `{PyFloat}.



(** C8: two different rows of the returned batch are two different rows of
    the original batch, carry the codenames they came with, and these
    differ; and no row that the duplicate detector flagged is returned. *)
Theorem kept_codenames_distinct csv rows messages p q i j v w :
  ingest_and_validate_csv csv = Ret (rows, messages) ->
  rows !! p = Some (i, v) -> rows !! q = Some (j, w) -> p <> q ->
  (exists ri rj,
      csv !! i = Some ri /\ csv !! j = Some rj /\ i <> j
      /\ codename v = Cell (codename ri) /\ codename w = Cell (codename rj)
      /\ same_key (codename ri) (codename rj) = false)
  /\ (forall k u, duplicated (map codename csv) !! k = Some true -> (k, u) ∉ rows).
Proof.
  intros Hrun Hp Hq Hne. split.
  - assert (i <> j) as Hij.
    { apply (sorted_lookup_ne rows.*1 p q);
        [by eapply ingest_sorted|by rewrite list_lookup_fmap, Hp
        |by rewrite list_lookup_fmap, Hq|done]. }
    apply list_elem_of_lookup_2, (row_kept csv rows messages Hrun) in Hp
      as (ri & f & Hi & Hoi & ->).
    apply list_elem_of_lookup_2, (row_kept csv rows messages Hrun) in Hq
      as (rj & g & Hj & Hoj & ->).
    exists ri, rj. repeat split; try done.
    + apply (row_outcome_codename _ _ _ _ (map_row Cell ri) Hoi).
    + apply (row_outcome_codename _ _ _ _ (map_row Cell rj) Hoj).
    + apply row_outcome_not_duplicate in Hoi.
      apply (duplicated_false (map codename csv) i j);
        [done|by rewrite lookup_map, Hi|by rewrite lookup_map, Hj|done].
  - intros k u Hk Hin.
    apply (row_kept csv rows messages Hrun) in Hin as (r & f & _ & Ho & _).
    apply row_outcome_not_duplicate in Ho. by rewrite Hk in Ho.
Qed.

(** C9 (the code falls short of it): a row whose color_names entry is
    missing stops the pipeline with an exception, so the batch yields
    neither a validated batch nor an error report, and the row's
    empty-value message is lost. *)
Theorem missing_color_names_aborts csv i r :
  csv !! i = Some r -> pd_isnull (color_names r) = true ->
  exists e, ingest_and_validate_csv csv = Raise e.
Proof.
  intros Hi Hnull. destruct (ingest_and_validate_csv csv) as [[rows messages]|e] eqn:Hrun;
    [|by exists e].
  destruct (row_returns csv rows messages Hrun i r Hi) as [ef Ho].
  apply row_outcome_inv in Ho as (_ & _ & _ & _ & _ & e8 & _ & _ & _ & _ & _ & H8 & _).
  destruct (color_names r); simpl in *; done.
Qed.




(** On any float arithmetic, a value that parses to a negative float is
    rejected with the must-be-a-float message. *)
Lemma negative_rejected_as_not_a_float (v : cell) (x : pyfloat) (name : string) :
  py_float v = Ret x -> float_neg x = true ->
  validate_mass_surf v = Raise (ValueError ("mass_surf must be a float. Got " +:+ py_str v))
  /\ validate_positive_float v name
     = Raise (ValueError (name +:+ " must be a float. Got " +:+ py_str v)).
Proof.
  intros Hx Hneg. unfold validate_mass_surf, validate_positive_float.
  by rewrite Hx; simpl; rewrite Hneg.
Qed.

(** The mesh dimensions share one [try]: once the height is rejected the
    width is not looked at. *)
Lemma mesh_height_error_hides_width i (w : res pyfloat) (m : string) :
  guarded_mesh i (Raise (ValueError m)) w = Ret ([error_message (i + 1) m], id).
Proof. reflexivity. Qed.

End Claims.

(** ** The claims on sample batches *)

(** C1 (the code falls short of it): a row whose mesh_height and mesh_width
    are both invalid gets the mesh_height message only; the mesh_width
    message appears when the height is valid. *)
Theorem mesh_width_error_suppressed :
  ingest_and_validate_csv
    [set_col c_mesh_width (Str "xyz") (set_col c_mesh_height (Str "abc") row_A1)]
  = Ret ([], ["Error at line 1: mesh_height must be a float. Got abc"])
  /\ ingest_and_validate_csv [set_col c_mesh_width (Str "xyz") row_A1]
     = Ret ([], ["Error at line 1: mesh_width must be a float. Got xyz"]).
Proof. split; reflexivity. Qed.

(** C2 (the code falls short of it): a negative mass_surf, whether the
    frame holds it as the float -3.0, the integer -3 or the text -3, is
    rejected with the must-be-a-float message and not with the
    must-be-non-negative one; so is a negative mesh dimension. *)
Theorem negative_float_reported_as_not_a_float :
  validate_mass_surf (Flt minus_3_0)
  = Raise (ValueError "mass_surf must be a float. Got -3.0")
  /\ validate_mass_surf (Int (-3))
     = Raise (ValueError "mass_surf must be a float. Got -3")
  /\ validate_mass_surf (Str "-3")
     = Raise (ValueError "mass_surf must be a float. Got -3")
  /\ validate_positive_float (Str "-0.0001") "mesh_height"
     = Raise (ValueError "mesh_height must be a float. Got -0.0001")
  /\ ingest_and_validate_csv [row_B2; set_col c_mass_surf (Flt minus_3_0) row_A1]
     = Ret ([(0, typed_B2)], ["Error at line 2: mass_surf must be a float. Got -3.0"]).
Proof. repeat split; reflexivity. Qed.

(** C3 (the code falls short of it): on a row whose color_names entry is
    missing, the colour validator raises an exception that the loop does
    not catch; it leaves [ingest_and_validate_csv] and [main], which
    prints nothing.  An infinite roll_pallet escapes likewise. *)
Theorem null_color_names_escapes :
  convert_and_validate_colors nan valid_colors = Raise AttributeError
  /\ ingest_and_validate_csv [set_col c_color_names nan row_A1] = Raise AttributeError
  /\ main [set_col c_color_names nan row_A1] (World [] [])
     = (World [] [], Raise AttributeError)
  /\ ingest_and_validate_csv [set_col c_roll_pallet (Flt (Dec.Inf false)) row_A1]
     = Raise OverflowError.
Proof. repeat split; reflexivity. Qed.





Lemma kept_codenames_distinct_witness :
  ingest_and_validate_csv [row_A1; row_B2] = Ret ([(0, typed_A1); (1, typed_B2)], [])
  /\ exists ri rj,
      [row_A1; row_B2] !! 0 = Some ri /\ [row_A1; row_B2] !! 1 = Some rj /\ 0 <> 1
      /\ codename typed_A1 = Cell (codename ri) /\ codename typed_B2 = Cell (codename rj)
      /\ same_key (codename ri) (codename rj) = false.
Proof.
  split; [reflexivity|].
  apply (proj1 (kept_codenames_distinct [row_A1; row_B2]
                  [(0, typed_A1); (1, typed_B2)] [] 0 1 0 1 typed_A1 typed_B2
                  ltac:(reflexivity) eq_refl eq_refl ltac:(lia))).
Defined.

Lemma missing_color_names_aborts_witness :
  exists e, ingest_and_validate_csv [row_B2; set_col c_color_names nan row_A1] = Raise e.
Proof.
  apply (missing_color_names_aborts [row_B2; set_col c_color_names nan row_A1] 1
           (set_col c_color_names nan row_A1)); reflexivity.
Defined.



(** * Further properties *)

(** ** Decimal numerals *)

Lemma digit_not_space (c : ascii) : is_digit c = true -> is_space c = false.
Proof.
  unfold is_digit, is_space. intros Hd.
  apply andb_true_iff in Hd as [H1 H2].
  apply Nat.leb_le in H1. apply Nat.leb_le in H2.
  apply orb_false_iff. split; apply andb_false_iff.
  - right. apply Nat.leb_gt. lia.
  - right. apply Nat.leb_gt. lia.
Qed.

Lemma digit_lower (c : ascii) : is_digit c = true -> lower_char c = c.
Proof.
  unfold is_digit, lower_char. intros Hd.
  apply andb_true_iff in Hd as [H1 H2].
  apply Nat.leb_le in H1. apply Nat.leb_le in H2.
  destruct (Nat.leb_spec 65 (nat_of_ascii c)); [lia|done].
Qed.

Lemma uint_all_digits (d : Decimal.uint) :
  all_chars is_digit (NilEmpty.string_of_uint d) = true.
Proof. induction d; simpl; auto. Qed.

Lemma rstrip_no_space (s : string) :
  all_chars (fun c => negb (is_space c)) s = true -> rstrip s = s.
Proof.
  induction s as [|c s IH]; simpl; [done|].
  intros [Hc Hs]%andb_true_iff. rewrite (IH Hs).
  apply negb_true_iff in Hc. rewrite Hc. by destruct s.
Qed.

Lemma lstrip_no_space (s : string) :
  all_chars (fun c => negb (is_space c)) s = true -> lstrip s = s.
Proof.
  destruct s as [|c s]; simpl; [done|].
  intros [Hc _]%andb_true_iff. apply negb_true_iff in Hc. by rewrite Hc.
Qed.

Lemma strip_no_space (s : string) :
  all_chars (fun c => negb (is_space c)) s = true -> strip s = s.
Proof.
  intros Hs. unfold strip. by rewrite (lstrip_no_space s Hs), (rstrip_no_space s Hs).
Qed.

Lemma all_chars_impl (p q : ascii -> bool) (s : string) :
  (forall c, p c = true -> q c = true) ->
  all_chars p s = true -> all_chars q s = true.
Proof.
  intros Hpq. induction s as [|c s IH]; simpl; [done|].
  intros [Hc Hs]%andb_true_iff. by rewrite (Hpq c Hc), (IH Hs).
Qed.

Lemma lower_all_digits (s : string) : all_chars is_digit s = true -> lower s = s.
Proof.
  induction s as [|c s IH]; simpl; [done|].
  intros [Hc Hs]%andb_true_iff. by rewrite (digit_lower c Hc), (IH Hs).
Qed.

(** The digits of a numeral, read back by [digit_run]. *)
Lemma digit_run_acc (d : Decimal.uint) : forall (p : positive) (cnt : nat),
  exists k, digit_run true (Npos p) cnt (NilEmpty.string_of_uint d)
            = Some (Npos (Pos.of_uint_acc d p), k).
Proof.
  induction d; intros p cnt; simpl; eauto;
    match goal with
    | |- context [digit_run true ?a ?c _] =>
        match goal with
        | |- context [Pos.of_uint_acc _ ?q] =>
            replace a with (Npos q) by (unfold digit_val; simpl; lia)
        end
    end; apply IHd.
Qed.

Lemma digit_run_uint (d : Decimal.uint) : forall (b : bool) (cnt : nat),
  d <> Decimal.Nil ->
  exists k, digit_run b 0 cnt (NilEmpty.string_of_uint d) = Some (Pos.of_uint d, k).
Proof.
  induction d; intros b cnt Hd; [done| |..]; simpl.
  - assert (d = Decimal.Nil \/ d <> Decimal.Nil) as [->|Hne]
      by (destruct d; [by left|by right..]); [simpl; eauto|].
    apply (IHd true (S cnt) Hne).
  - apply (digit_run_acc d 1 (S cnt)).
  - apply (digit_run_acc d 2 (S cnt)).
  - apply (digit_run_acc d 3 (S cnt)).
  - apply (digit_run_acc d 4 (S cnt)).
  - apply (digit_run_acc d 5 (S cnt)).
  - apply (digit_run_acc d 6 (S cnt)).
  - apply (digit_run_acc d 7 (S cnt)).
  - apply (digit_run_acc d 8 (S cnt)).
  - apply (digit_run_acc d 9 (S cnt)).
Qed.

Lemma take_sign_digits (s : string) :
  all_chars is_digit s = true -> take_sign s = (false, s).
Proof.
  destruct s as [|c s]; simpl; [done|].
  intros [Hc _]%andb_true_iff.
  destruct c as [[] [] [] [] [] [] [] []]; try done.
Qed.

Lemma int_of_str_uint (d : Decimal.uint) :
  d <> Decimal.Nil ->
  int_of_str (NilEmpty.string_of_uint d) = Some (Z.of_uint d)
  /\ int_of_str (String "-" (NilEmpty.string_of_uint d)) = Some (- Z.of_uint d)%Z.
Proof.
  intros Hd. pose proof (uint_all_digits d) as Hall.
  assert (all_chars (fun c => negb (is_space c)) (NilEmpty.string_of_uint d) = true)
    as Hns.
  { apply (all_chars_impl is_digit); [|done].
    intros c Hc. by rewrite (digit_not_space c Hc). }
  destruct (digit_run_uint d false 0 Hd) as [k Hk]. unfold int_of_str, digits. split.
  - rewrite (strip_no_space _ Hns), (take_sign_digits _ Hall), Hk. done.
  - rewrite strip_no_space by (simpl; by rewrite Hns).
    simpl. rewrite Hk. done.
Qed.

Lemma nilzero_nonnil (d : Decimal.uint) :
  d <> Decimal.Nil -> NilZero.string_of_uint d = NilEmpty.string_of_uint d.
Proof. by destruct d. Qed.

(** [int(str(n)) == n] *)
Lemma int_of_str_of_Z (n : Z) : int_of_str (str_of_Z n) = Some n.
Proof.
  unfold str_of_Z. destruct n as [|p|p]; [done| |]; simpl;
    rewrite (nilzero_nonnil _ (DecimalPos.Unsigned.to_uint_nonnil p));
    destruct (int_of_str_uint _ (DecimalPos.Unsigned.to_uint_nonnil p)) as [Hp Hn].
  - rewrite Hp. unfold Z.of_uint. by rewrite DecimalPos.Unsigned.of_to.
  - rewrite Hn. unfold Z.of_uint. by rewrite DecimalPos.Unsigned.of_to.
Qed.

Lemma str_of_Z_inj (m n : Z) : str_of_Z m = str_of_Z n -> m = n.
Proof.
  intros Heq. pose proof (int_of_str_of_Z m) as Hm.
  rewrite Heq, int_of_str_of_Z in Hm. congruence.
Qed.

Lemma to_uint_nonnil (n : nat) : Nat.to_uint n <> Decimal.Nil.
Proof.
  rewrite <- (DecimalNat.Unsigned.of_to n) at 1.
  rewrite DecimalNat.Unsigned.to_of. unfold Decimal.unorm.
  by destruct (Decimal.nzhead (Nat.to_uint n)).
Qed.

Lemma str_of_nat_digits (n : nat) : all_chars is_digit (str_of_nat n) = true.
Proof.
  unfold str_of_nat. rewrite (nilzero_nonnil _ (to_uint_nonnil n)).
  apply uint_all_digits.
Qed.

Lemma str_of_nat_inj (m n : nat) : str_of_nat m = str_of_nat n -> m = n.
Proof.
  unfold str_of_nat. intros Heq.
  pose proof (NilZero.usu _ (to_uint_nonnil m)) as Hm.
  rewrite Heq, (NilZero.usu _ (to_uint_nonnil n)) in Hm.
  apply DecimalNat.Unsigned.to_uint_inj. congruence.
Qed.

(** Digits, then a tail that does not start with a digit: the two parts
    are determined. *)
Lemma digits_then_tail (d1 d2 t1 t2 : string) (c1 c2 : ascii) :
  all_chars is_digit d1 = true -> all_chars is_digit d2 = true ->
  is_digit c1 = false -> is_digit c2 = false ->
  d1 +:+ String c1 t1 = d2 +:+ String c2 t2 ->
  d1 = d2 /\ String c1 t1 = String c2 t2.
Proof.
  revert d2. induction d1 as [|a d1 IH]; intros [|b d2]; simpl;
    intros H1 H2 Hc1 Hc2 Heq.
  - done.
  - injection Heq as -> _. apply andb_true_iff in H2 as [H2 _]. congruence.
  - injection Heq as -> _. apply andb_true_iff in H1 as [H1 _]. congruence.
  - injection Heq as -> Heq.
    apply andb_true_iff in H1 as [_ H1]. apply andb_true_iff in H2 as [_ H2].
    destruct (IH d2 H1 H2 Hc1 Hc2 Heq) as [-> ?]. done.
Qed.

Lemma append_cancel_l (p s t : string) : p +:+ s = p +:+ t -> s = t.
Proof. induction p as [|c p IH]; simpl; [done|]. intros [= Heq]. auto. Qed.

(** ** The validators, one by one *)

Lemma column_name_inj (c d : column) : column_name c = column_name d -> c = d.
Proof. destruct c, d; simpl; intros Heq; try done; discriminate Heq. Qed.

(** X1: a message names its row: two duplicate-codename messages, two
    empty-value messages or two validator messages are equal only for the
    same line (and the same field, the same text); and the three kinds of
    message never coincide. *)
Theorem messages_identify_row :
  (forall a b, duplicate_message a = duplicate_message b -> a = b)
  /\ (forall a b c d, empty_message a c = empty_message b d -> a = b /\ c = d)
  /\ (forall a b e f, error_message a e = error_message b f -> a = b /\ e = f)
  /\ (forall a b c e,
        empty_message a c <> duplicate_message b
        /\ empty_message a c <> error_message b e
        /\ duplicate_message a <> error_message b e).
Proof.
  split; [|split; [|split]].
  - intros a b Heq. unfold duplicate_message in Heq.
    apply append_cancel_l in Heq.
    apply digits_then_tail in Heq as [Heq _];
      [by apply str_of_nat_inj|apply str_of_nat_digits..|done|done].
  - intros a b c d Heq. unfold empty_message in Heq.
    apply append_cancel_l in Heq.
    apply (digits_then_tail _ _ _ _ " " " ") in Heq as [Hn Ht];
      [|apply str_of_nat_digits..|done|done].
    split; [by apply str_of_nat_inj|].
    apply (append_cancel_l " for '") in Ht.
    destruct c, d; try done; discriminate Ht.
  - intros a b e f Heq. unfold error_message in Heq.
    apply append_cancel_l in Heq.
    apply (digits_then_tail _ _ _ _ ":" ":") in Heq as [Hn Ht];
      [|apply str_of_nat_digits..|done|done].
    split; [by apply str_of_nat_inj|].
    by apply (append_cancel_l ": ") in Ht.
  - intros a b c e. repeat split; intros Heq; discriminate Heq.
Qed.

Section Validators.
Context `{PyFloat}.

Lemma py_float_raises (v : cell) (e : exn) :
  py_float v = Raise e -> exists m, e = ValueError m.
Proof.
  destruct v as [s|x|n|b]; simpl; try done.
  destruct (float_of_str s); [done|]. intros [= <-]. eauto.
Qed.

(** X2: a float validator returns exactly the parsed value, when that is
    not negative; in every other case it raises one and the same message,
    the must-be-a-float one; and [validate_mass_surf] is
    [validate_positive_float] for the name mass_surf. *)
Theorem float_validator_result (v : cell) (name : string) :
  (forall m, validate_positive_float v name = Ret m
             <-> py_float v = Ret m /\ float_neg m = false)
  /\ (forall e, validate_positive_float v name = Raise e ->
                e = ValueError (name +:+ " must be a float. Got " +:+ py_str v))
  /\ validate_mass_surf v = validate_positive_float v "mass_surf".
Proof.
  unfold validate_positive_float, validate_mass_surf.
  split; [|split; [|done]].
  - intros m. destruct (py_float v) as [x|e] eqn:Hv; simpl.
    + destruct (float_neg x) eqn:Hx; simpl; split.
      * done.
      * intros [[= ->] ?]. congruence.
      * intros [= ->]. done.
      * intros [[= ->] _]. done.
    + destruct (py_float_raises v e Hv) as [m' ->]. simpl. split; [done|].
      by intros [? _].
  - intros e. destruct (py_float v) as [x|e'] eqn:Hv; simpl.
    + destruct (float_neg x); simpl; [|done]. by intros [= <-].
    + destruct (py_float_raises v e' Hv) as [m' ->]. simpl. by intros [= <-].
Qed.

Lemma str_of_Z_in_values (n : Z) (l : list cell) :
  str_in (lower (py_str (Int n))) l
  = existsb (fun c => match c with
                      | Str t => match int_of_str t with
                                 | Some m => String.eqb (str_of_Z m) t && Z.eqb n m
                                 | None => false
                                 end
                      | _ => false
                      end) l.
Proof.
  simpl. assert (lower (str_of_Z n) = str_of_Z n) as ->.
  { destruct n as [|p|p]; [done| |]; unfold str_of_Z; simpl;
      rewrite (nilzero_nonnil _ (DecimalPos.Unsigned.to_uint_nonnil p)).
    - apply lower_all_digits, uint_all_digits.
    - simpl. f_equal. apply lower_all_digits, uint_all_digits. }
  unfold str_in. induction l as [|c l IH]; simpl; [done|]. rewrite IH. f_equal.
  destruct c as [t| | |]; try done.
  destruct (String.eqb_spec (str_of_Z n) t) as [<-|Hne].
  - by rewrite int_of_str_of_Z, String.eqb_refl, Z.eqb_refl.
  - destruct (int_of_str t) as [m|]; [|done].
    destruct (String.eqb_spec (str_of_Z m) t) as [<-|]; [|done].
    destruct (Z.eqb_spec n m) as [->|]; done.
Qed.

(** X3: [validate_bool] looks at a text only through its lower-case form;
    it gives a boolean entry back as it is; and of the integer entries it
    accepts 1, as true, and 0, as false, and nothing else. *)
Theorem validate_bool_accepts :
  (forall s t b, lower s = lower t ->
                 validate_bool (Str s) = Ret b -> validate_bool (Str t) = Ret b)
  /\ (forall b, validate_bool (Bool b) = Ret b)
  /\ (forall n b, validate_bool (Int n) = Ret b <-> n = (if b then 1 else 0)%Z).
Proof.
  split; [|split].
  - intros s t b Heq. unfold validate_bool. cbn [py_str]. rewrite Heq.
    destruct (str_in (lower t) true_values); [done|].
    by destruct (str_in (lower t) false_values).
  - by intros [].
  - intros n b. unfold validate_bool.
    rewrite !str_of_Z_in_values. simpl. rewrite !orb_false_r.
    destruct (Z.eqb_spec n 1) as [->|H1]; simpl.
    + destruct b; split; done.
    + destruct (Z.eqb_spec n 0) as [->|H0]; simpl.
      * destruct b; split; done.
      * destruct b; split; done.
Qed.


End Validators.

(** ** The report and the rows returned *)

Section Report.
Context `{PyFloat}.

Lemma loop_body_row_errors dups i r ef s :
  row_outcome dups i r = Ret ef -> row_errors (fst (loop_body dups i r s)) = fst ef.
Proof.
  intros Ho. pose proof (loop_body_run dups i r s) as Hb. rewrite Ho in Hb.
  by rewrite Hb.
Qed.

Lemma batch_messages_concat dups rows : forall i,
  batch_messages dups i rows
  = concat (imap (fun k r => row_messages dups (i + k) r) rows).
Proof.
  induction rows as [|r rows IH]; intros i; simpl; [done|].
  rewrite Nat.add_0_r, IH. do 2 f_equal.
  apply imap_ext. intros k x _. simpl. f_equal. lia.
Qed.

Lemma guarded_nil {A} i (c : res A) store f :
  guarded i c store = Ret ([], f) -> exists v, c = Ret v /\ f = store v.
Proof. destruct c as [v|[m| | |]]; simpl; intros [= <-]; eauto. Qed.

Lemma guarded_mesh_nil i (h w : res pyfloat) f :
  guarded_mesh i h w = Ret ([], f) ->
  exists x y, h = Ret x /\ w = Ret y
              /\ f = set_col c_mesh_width (Cell (Flt y))
                     ∘ set_col c_mesh_height (Cell (Flt x)).
Proof.
  destruct h as [x|[m| | |]]; simpl; try done.
  destruct w as [y|[m| | |]]; simpl; try done. intros [= <-]. eauto.
Qed.

Lemma presence_messages_none i r cols :
  presence_messages i r cols = [] ->
  Forall (fun c => pd_isnull (get c r) = false) cols.
Proof.
  induction cols as [|c cols IH]; simpl; [constructor|].
  destruct (pd_isnull (get c r)) eqn:Hc; simpl; [done|]. intros Hnil.
  constructor; auto.
Qed.

(** A row without messages has passed every check, and its entries are
    what the validators returned. *)
Lemma row_outcome_clean dups i r f :
  row_outcome dups i r = Ret ([], f) ->
  Forall (fun c => pd_isnull (get c r) = false) required_fields
  /\ default false (dups !! i) = false
  /\ coerces r (f (map_row Cell r)).
Proof.
  intros Ho. pose proof (row_outcome_not_duplicate _ _ _ _ Ho) as Hdup.
  apply row_outcome_inv in Ho
    as ([es3 f3] & [es4 f4] & [es5 f5] & [es6 f6] & [es7 f7] & [es8 f8]
        & H3 & H4 & H5 & H6 & H7 & H8 & Hes & Hf).
  simpl in Hes, Hf. symmetry in Hes.
  apply app_eq_nil in Hes as [Hpres Hes]. apply app_eq_nil in Hes as [_ Hes].
  apply app_eq_nil in Hes as [-> Hes]. apply app_eq_nil in Hes as [-> Hes].
  apply app_eq_nil in Hes as [-> Hes]. apply app_eq_nil in Hes as [-> Hes].
  apply app_eq_nil in Hes as [-> ->].
  apply guarded_nil in H3 as ([] & Ht & ->).
  apply guarded_nil in H4 as (m & Hm & ->).
  apply guarded_nil in H5 as (b & Hb & ->).
  apply guarded_mesh_nil in H6 as (h & w & Hh & Hw & ->).
  apply guarded_nil in H7 as (p & Hp & ->).
  apply guarded_nil in H8 as (cs & Hc & ->).
  split; [by apply (presence_messages_none i)|]. split; [done|].
  exists m, b, h, w, p, cs. rewrite Hf. repeat split; done.
Qed.

Variables (csv : list (row cell)) (rows : list (nat * row value))
  (messages : list string).
Hypothesis Hrun : ingest_and_validate_csv csv = Ret (rows, messages).

Lemma report_concat s :
  messages
  = concat (imap (fun i r =>
                    row_errors (fst (loop_body (duplicated (map codename csv)) i r s)))
              csv).
Proof.
  destruct (ingest_returns _ _ _ Hrun) as (Hret & -> & _).
  rewrite batch_messages_concat. f_equal. apply imap_ext. intros i r Hi. simpl.
  destruct (Hret i r Hi) as [ef Ho]. unfold row_messages.
  by rewrite (loop_body_row_errors _ _ _ _ _ Ho), Ho.
Qed.

Lemma kept_iff_clean i r s :
  csv !! i = Some r ->
  (exists v, (i, v) ∈ rows)
  <-> row_errors (fst (loop_body (duplicated (map codename csv)) i r s)) = [].
Proof.
  intros Hi. destruct (row_returns csv rows messages Hrun i r Hi) as [[es f] Ho].
  rewrite (loop_body_row_errors _ _ _ _ _ Ho). simpl. split.
  - intros [v Hv]. apply (row_kept csv rows messages Hrun) in Hv
      as (r' & f' & Hi' & Ho' & _).
    assert (r' = r) as -> by congruence. rewrite Ho in Ho'. by injection Ho' as ->.
  - intros ->. exists (f (map_row Cell r)).
    apply (row_kept csv rows messages Hrun). by exists r, f.
Qed.

Lemma kept_row_shape i v :
  (i, v) ∈ rows ->
  exists r, csv !! i = Some r
            /\ coerces r v
            /\ Forall (fun c => pd_isnull (get c r) = false) required_fields
            /\ (forall j r', csv !! j = Some r' -> j <> i ->
                             same_key (codename r) (codename r') = false).
Proof.
  intros Hin. apply (row_kept csv rows messages Hrun) in Hin as (r & f & Hi & Ho & ->).
  destruct (row_outcome_clean _ _ _ _ Ho) as (Hpres & Hdup & Hv).
  exists r. repeat split; try done.
  intros j r' Hj Hne.
  apply (duplicated_false (map codename csv) i j); try done;
    rewrite lookup_map; [by rewrite Hi|by rewrite Hj].
Qed.

End Report.

Section ReportClaims.
Context `{PyFloat}.

(** X5: the report is the messages of the rows, row after row in the order
    of the frame, each row's messages in the order the loop builds them
    in [row_errors]; and these are the messages of the iteration run on
    its own, in whatever state: what a row is reported for depends on the
    row, its index and the duplicate flags, not on the rows before it. *)
Theorem report_in_row_order csv rows messages s :
  ingest_and_validate_csv csv = Ret (rows, messages) ->
  messages
  = concat (imap (fun i r =>
                    row_errors (fst (loop_body (duplicated (map codename csv)) i r s)))
              csv).
Proof. intros Hrun. apply (report_concat csv rows messages Hrun). Qed.

(** X6: a row is returned exactly when its iteration, in whatever state it
    runs, leaves [row_errors] empty. *)
Theorem kept_iff_no_row_errors csv rows messages i r s :
  ingest_and_validate_csv csv = Ret (rows, messages) ->
  csv !! i = Some r ->
  (exists v, (i, v) ∈ rows)
  <-> row_errors (fst (loop_body (duplicated (map codename csv)) i r s)) = [].
Proof. intros Hrun. apply (kept_iff_clean csv rows messages Hrun). Qed.


End ReportClaims.

(** ** Exceptions that leave the pipeline *)

Section Escapes.
Context `{PyFloat}.








End Escapes.

(** ** One iteration and the frame *)

Section Frame.
Context `{PyFloat}.

Lemma get_set_col_other {A} (c c' : column) (x : A) (r : row A) :
  c <> c' -> get c (set_col c' x r) = get c r.
Proof. by destruct c, c'. Qed.

Lemma guarded_keeps {A} i (res : res A) col (inj : A -> value) ef c v :
  c <> col ->
  guarded i res (fun x => set_col col (inj x)) = Ret ef ->
  get c (snd ef v) = get c v.
Proof.
  intros Hc. destruct res as [x|[m| | |]]; simpl; intros [= <-]; simpl; try done.
  by apply get_set_col_other.
Qed.

(** An iteration writes to neither the codename nor the trame. *)
Lemma row_outcome_keeps dups i r ef c v :
  c = c_codename \/ c = c_trame ->
  row_outcome dups i r = Ret ef -> get c (snd ef v) = get c v.
Proof.
  intros Hc Ho. apply row_outcome_inv in Ho
    as (e3 & e4 & e5 & e6 & e7 & e8 & H3 & H4 & H5 & H6 & H7 & H8 & _ & Hf).
  rewrite Hf.
  rewrite (guarded_keeps i _ c_color_names _ e8 c _ ltac:(by destruct Hc as [->| ->]) H8).
  rewrite (guarded_keeps i _ c_roll_pallet _ e7 c _ ltac:(by destruct Hc as [->| ->]) H7).
  assert (forall u, get c (snd e6 u) = get c u) as ->.
  { intros u. revert H6. unfold guarded_mesh.
    destruct (validate_positive_float (mesh_height r) _) as [x|[m| | |]]; try done.
    - destruct (validate_positive_float (mesh_width r) _) as [y|[m| | |]]; try done;
        intros [= <-]; simpl; by destruct Hc as [->| ->].
    - by intros [= <-]. }
  rewrite (guarded_keeps i _ c_is_compat_interior_wall _ e5 c _
             ltac:(by destruct Hc as [->| ->]) H5).
  rewrite (guarded_keeps i _ c_mass_surf _ e4 c _ ltac:(by destruct Hc as [->| ->]) H4).
  revert H3. destruct (validate_trame _ _) as [[]|[m| | |]]; simpl; try done;
    by intros [= <-].
Qed.

(** X10: an iteration that returns leaves every other row of the frame as
    it was and keeps the number of rows; it appends its own messages, the
    final [row_errors], to [error_messages] without touching the messages
    already there; and in its own row it sets [exclude] exactly when it
    has messages, and writes to neither the codename nor the trame. *)
Theorem iteration_frame dups i r s s' u :
  loop_body dups i r s = (s', Ret u) ->
  length (df s') = length (df s)
  /\ (forall j, j <> i -> df s' !! j = df s !! j)
  /\ error_messages s' = error_messages s ++ row_errors s'
  /\ (forall fr, df s !! i = Some fr ->
        exists fr', df s' !! i = Some fr'
          /\ exclude fr' = (match row_errors s' with
                            | [] => exclude fr
                            | _ :: _ => true
                            end)
          /\ codename (vals fr') = codename (vals fr)
          /\ trame (vals fr') = trame (vals fr)).
Proof.
  intros Hrun. pose proof (loop_body_run dups i r s) as Hb.
  destruct (row_outcome dups i r) as [ef|e] eqn:Ho.
  2:{ rewrite Hrun in Hb. done. }
  rewrite Hb in Hrun. injection Hrun as <- _. simpl.
  split; [apply length_alter|]. split.
  - intros j Hj. by apply list_lookup_alter_ne.
  - split; [done|]. intros fr Hfr. exists (finish ef fr). split.
    + by rewrite list_lookup_alter_eq, Hfr.
    + split; [done|]. simpl. split.
      * apply (row_outcome_keeps dups i r ef c_codename); auto.
      * apply (row_outcome_keeps dups i r ef c_trame); auto.
Qed.

End Frame.

(** ** Reported twice, stored as written, dropped or not *)

Section More.
Context `{PyFloat}.

(** X11: a row whose trame is missing is reported twice for it, once as an
    empty value and once by the trame validator, which is given the NaN;
    and the row is dropped. *)
Theorem missing_trame_reported_twice csv rows messages i r x :
  ingest_and_validate_csv csv = Ret (rows, messages) ->
  csv !! i = Some r -> trame r = Flt x -> float_isnan x = true ->
  empty_message (i + 1) c_trame ∈ messages
  /\ error_message (i + 1) ("Value " +:+ float_repr x +:+ " for trame is not valid.")
       ∈ messages
  /\ forall v, (i, v) ∉ rows.
Proof.
  intros Hrun Hi Ht Hx.
  destruct (missing_field_reported csv rows messages Hrun i r c_trame) as [He Hd];
    [done|by right; left|by simpl; rewrite Ht|].
  split; [done|]. split; [|done].
  destruct (row_returns csv rows messages Hrun i r Hi) as [ef Ho].
  apply (row_reported csv rows messages Hrun i r ef); [done..|].
  apply row_outcome_inv in Ho
    as (e3 & e4 & e5 & e6 & e7 & e8 & H3 & _ & _ & _ & _ & _ & -> & _).
  rewrite Ht in H3. simpl in H3. injection H3 as <-. simpl.
  apply elem_of_app. right. apply elem_of_app. right. by left.
Qed.

(** X12: the colours of a returned row reach the table as the text the
    frame had: the record made of the row holds, as color_names, the very
    string of the CSV entry, and the codename of the entry. *)
Theorem colors_stored_as_written csv rows messages i v :
  ingest_and_validate_csv csv = Ret (rows, messages) ->
  (i, v) ∈ rows ->
  exists r s mesh,
    csv !! i = Some r /\ color_names r = Str s
    /\ new_mesh v = Ret mesh
    /\ Mesh_color_names mesh = s
    /\ Mesh_codename mesh = Cell (codename r).
Proof.
  intros Hrun Hin.
  destruct (kept_row_shape csv rows messages Hrun i v Hin)
    as (r & Hi & (m & b & h & w & p & cs & _ & _ & _ & _ & _ & _ & Hc & ->) & _).
  unfold convert_and_validate_colors in Hc.
  destruct (color_names r) as [s| | |] eqn:Hs; try done.
  destruct (forallb _ _); [|done]. injection Hc as <-.
  exists r, s. eexists. split; [done|]. split; [done|].
  unfold new_mesh. simpl. split; [reflexivity|]. simpl. split; [apply join_split|done].
Qed.

Lemma new_mesh_raise (r : row value) (e : exn) : new_mesh r = Raise e -> e = TypeError.
Proof.
  unfold new_mesh. destruct (color_names r) as [[]| |]; simpl; congruence.
Qed.

Lemma session_add_all_result (rows : list (nat * row value)) : forall session,
  (exists meshes,
      session_add_all rows session = Ret (session ++ meshes)
      /\ Forall2 (fun ir mesh => new_mesh (snd ir) = Ret mesh) rows meshes)
  \/ session_add_all rows session = Raise TypeError.
Proof.
  induction rows as [|ir rows IH]; intros session; simpl.
  - left. exists []. rewrite app_nil_r. split; [done|constructor].
  - destruct (new_mesh ir.2) as [mesh|e] eqn:Hm; simpl.
    + destruct (IH (session ++ [mesh])) as [(meshes & Hrun & Hall)|Hrun].
      * left. exists (mesh :: meshes). rewrite Hrun, <- app_assoc.
        split; [done|]. by constructor.
      * by right.
    + right. by rewrite (new_mesh_raise _ _ Hm).
Qed.

Lemma insert_data_to_db_result (rows : list (nat * row value)) (w : world) :
  (exists meshes,
      insert_data_to_db rows w
      = (World (stdout w) (mesh_table w ++ meshes), Ret tt)
      /\ Forall2 (fun ir mesh => new_mesh (snd ir) = Ret mesh) rows meshes)
  \/ insert_data_to_db rows w = (w, Raise TypeError).
Proof.
  unfold insert_data_to_db.
  destruct (session_add_all_result rows []) as [(meshes & -> & Hall)| ->].
  - left. by exists meshes.
  - by right.
Qed.


Lemma kept_from_length (fr : list frow) : forall i,
  let kept :=
    omap (fun p : nat * frow =>
            if exclude (snd p) then None else Some (fst p, vals (snd p)))
      (imap (fun k x => (i + k, x)) fr) in
  length kept <= length fr
  /\ (length kept = length fr <-> Forall (fun f => exclude f = false) fr).
Proof.
  induction fr as [|x fr IH]; intros i; simpl.
  - split; [done|]. split; [constructor|done].
  - rewrite (imap_ext _ (fun k y => (S i + k, y))) by (intros; simpl; f_equal; lia).
    pose proof (IH (S i)) as IH'. cbv zeta in IH'. destruct IH' as [Hle Hiff]. clear IH.
    destruct (exclude x) eqn:Hx; simpl in *; unfold omap in *.
    + split; [lia|]. split; [lia|]. intros Hall. apply Forall_cons in Hall as [? _].
      congruence.
    + split; [lia|]. split.
      * intros Hlen. constructor; [done|]. apply Hiff. lia.
      * intros Hall. apply Forall_cons in Hall as [_ Hall]. apply Hiff in Hall. lia.
Qed.

Lemma concat_nil {A} (ls : list (list A)) : concat ls = [] <-> Forall (eq []) ls.
Proof.
  induction ls as [|l ls IH]; simpl; [split; [constructor|done]|]. split.
  - intros [-> Hls]%app_eq_nil. constructor; [done|]. by apply IH.
  - intros Hall. apply Forall_cons in Hall as [<- Hall]. by apply IH.
Qed.

(** X14: the report is empty exactly when no row was dropped: the batch
    returned has as many rows as the frame. *)
Theorem report_empty_iff_nothing_dropped csv rows messages :
  ingest_and_validate_csv csv = Ret (rows, messages) ->
  length rows <= length csv
  /\ (messages = [] <-> length rows = length csv).
Proof.
  intros Hrun. destruct (ingest_returns _ _ _ Hrun) as (Hret & -> & ->).
  set (dups := duplicated (map codename csv)) in *.
  set (fr := imap (fun i r => finish_row dups i r (initial_row r)) csv).
  destruct (kept_from_length fr 0) as [Hle Hiff]. simpl in Hle, Hiff.
  change (omap _ (imap _ fr)) with (kept_rows fr) in Hle, Hiff.
  assert (length fr = length csv) as Hlen by apply length_imap.
  rewrite Hlen in Hle, Hiff. split; [done|]. rewrite Hiff.
  rewrite batch_messages_concat, concat_nil, !Forall_lookup. split.
  - intros Hnil i f Hf. apply list_lookup_imap_Some in Hf as (r & Hr & ->).
    assert (imap (fun k r => row_messages dups (0 + k) r) csv !! i
            = Some (row_messages dups i r)) as Hm
      by (by rewrite list_lookup_imap, Hr).
    apply Hnil in Hm. destruct (Hret i r Hr) as [ef Ho].
    unfold row_messages in Hm. unfold finish_row. simpl in Ho. fold dups in Ho.
    rewrite Ho in Hm. rewrite Ho. simpl. by rewrite <- Hm.
  - intros Hex i es Hes. apply list_lookup_imap_Some in Hes as (r & Hr & ->).
    assert (fr !! i = Some (finish_row dups i r (initial_row r))) as Hf
      by (by apply list_lookup_imap_Some; eauto).
    apply Hex in Hf. destruct (Hret i r Hr) as [ef Ho].
    unfold row_messages. unfold finish_row in Hf. simpl in Ho. fold dups in Ho.
    rewrite Ho in Hf. simpl. rewrite Ho. simpl in *. revert Hf. by destruct (fst ef).
Qed.

(** X15: [main] only adds: what was printed and what the table held stay,
    in this order, before anything new.  When [main] ends with an
    exception nothing at all was printed or stored; records are stored
    only together with the confirmation line; and on a frame without rows
    the confirmation is all there is. *)
Theorem main_only_adds (csv : list (row cell)) (w : world) :
  exists out tbl,
    fst (main csv w) = World (stdout w ++ out) (mesh_table w ++ tbl)
    /\ (forall e, snd (main csv w) = Raise e -> out = [] /\ tbl = [])
    /\ (tbl <> [] -> out = ["Data ingested and validated successfully."])
    /\ (csv = [] ->
        out = ["Data ingested and validated successfully."] /\ tbl = []
        /\ snd (main csv w) = Ret tt).
Proof.
  assert (w = World (stdout w ++ []) (mesh_table w ++ [])) as Hw
    by (rewrite !app_nil_r; by destruct w).
  unfold main. destruct (ingest_and_validate_csv csv) as [[rows messages]|e] eqn:Hrun.
  - destruct messages as [|m ms].
    + destruct (insert_data_to_db_result rows w) as [(meshes & -> & Hall)|Hins];
        [|rewrite Hins].
      * exists ["Data ingested and validated successfully."], meshes. simpl.
        split; [done|]. split; [done|]. split; [done|]. intros ->.
        injection Hrun as <-. apply Forall2_nil_inv_l in Hall. by subst.
      * exists [], []. simpl. split; [done|]. split; [done|]. split; [done|].
        intros ->. injection Hrun as <-. discriminate Hins.
    + exists ("Errors encountered:" :: m :: ms), []. rewrite print_all. simpl.
      rewrite app_nil_r, <- app_assoc. split; [done|]. split; [done|]. split; [done|].
      intros ->. discriminate Hrun.
  - exists [], []. simpl. split; [done|]. split; [done|]. split; [done|].
    intros ->. discriminate Hrun.
Qed.


End More.

(** ** The further properties on sample batches *)

Lemma report_in_row_order_witness :
  let s := State (map initial_row [text_A1; row_Z9]) ["earlier"] ["stale"] in
  ingest_and_validate_csv [text_A1; row_Z9] = Ret ([(0, typed_A1)], report_Z9)
  /\ report_Z9
     = concat (imap (fun i r =>
                       row_errors
                         (fst (loop_body (duplicated (map codename [text_A1; row_Z9]))
                                 i r s)))
                 [text_A1; row_Z9]).
Proof.
  intros s. split; [reflexivity|].
  apply (report_in_row_order [text_A1; row_Z9] [(0, typed_A1)] report_Z9 s).
  reflexivity.
Defined.

Lemma kept_iff_no_row_errors_witness :
  let s := State (map initial_row [text_A1; row_Z9]) [] [] in
  ((exists v, (0, v) ∈ [(0, typed_A1)])
   <-> row_errors
         (fst (loop_body (duplicated (map codename [text_A1; row_Z9])) 0 text_A1 s))
       = [])
  /\ ((exists v, (1, v) ∈ [(0, typed_A1)])
      <-> row_errors
            (fst (loop_body (duplicated (map codename [text_A1; row_Z9])) 1 row_Z9 s))
          = []).
Proof.
  intros s. split.
  - apply (kept_iff_no_row_errors [text_A1; row_Z9] [(0, typed_A1)] report_Z9 0 text_A1 s);
      reflexivity.
  - apply (kept_iff_no_row_errors [text_A1; row_Z9] [(0, typed_A1)] report_Z9 1 row_Z9 s);
      reflexivity.
Defined.



Lemma iteration_frame_witness :
  let dups := duplicated (map codename [text_A1; row_Z9]) in
  let s := State [initial_row text_A1; initial_row row_Z9] ["earlier"] [] in
  let s' := fst (loop_body dups 1 row_Z9 s) in
  length (df s') = length (df s)
  /\ (forall j, j <> 1 -> df s' !! j = df s !! j)
  /\ error_messages s' = error_messages s ++ row_errors s'
  /\ (forall fr, df s !! 1 = Some fr ->
        exists fr', df s' !! 1 = Some fr'
          /\ exclude fr' = (match row_errors s' with [] => exclude fr | _ :: _ => true end)
          /\ codename (vals fr') = codename (vals fr)
          /\ trame (vals fr') = trame (vals fr)).
Proof.
  intros dups s s'.
  apply (iteration_frame dups 1 row_Z9 s s' tt). reflexivity.
Defined.

Lemma missing_trame_reported_twice_witness :
  let messages :=
    ["Empty value at line 1 for 'trame'.";
     "Error at line 1: Value nan for trame is not valid."] in
  ingest_and_validate_csv [set_col c_trame nan row_A1] = Ret ([], messages)
  /\ empty_message (0 + 1) c_trame ∈ messages
  /\ error_message (0 + 1)
       ("Value " +:+ float_repr Dec.NaN +:+ " for trame is not valid.") ∈ messages
  /\ forall v, (0, v) ∉ @nil (nat * row value).
Proof.
  split; [reflexivity|].
  apply (missing_trame_reported_twice [set_col c_trame nan row_A1] [] _ 0
           (set_col c_trame nan row_A1) Dec.NaN); reflexivity.
Defined.

Lemma colors_stored_as_written_witness :
  exists r s mesh,
    [row_A1; row_B2] !! 1 = Some r /\ color_names r = Str s
    /\ new_mesh typed_B2 = Ret mesh
    /\ Mesh_color_names mesh = s
    /\ Mesh_codename mesh = Cell (codename r).
Proof.
  apply (colors_stored_as_written [row_A1; row_B2] [(0, typed_A1); (1, typed_B2)] []
           1 typed_B2).
  - reflexivity.
  - apply list_elem_of_further, list_elem_of_here.
Defined.

Lemma report_empty_iff_nothing_dropped_witness :
  (length [(0, typed_A1)] <= length [text_A1; row_Z9]
   /\ (report_Z9 = [] <-> length [(0, typed_A1)] = length [text_A1; row_Z9]))
  /\ (length [(0, typed_A1); (1, typed_B2)] <= length [row_A1; row_B2]
      /\ (@nil string = []
          <-> length [(0, typed_A1); (1, typed_B2)] = length [row_A1; row_B2])).
Proof.
  split.
  - apply (report_empty_iff_nothing_dropped [text_A1; row_Z9] [(0, typed_A1)] report_Z9).
    reflexivity.
  - apply (report_empty_iff_nothing_dropped [row_A1; row_B2]
             [(0, typed_A1); (1, typed_B2)] []).
    reflexivity.
Defined.


Lemma float_validator_result_witness :
  validate_positive_float (Str "2.0") "mesh_height" = Ret f2_0
  /\ validate_positive_float (Str "tall") "mesh_height"
     = Raise (ValueError "mesh_height must be a float. Got tall").
Proof.
  split.
  - apply (proj1 (@float_validator_result Dec.float (Str "2.0") "mesh_height") f2_0).
    split; reflexivity.
  - destruct (validate_positive_float (Str "tall") "mesh_height") as [m|e] eqn:Hv.
    + discriminate Hv.
    + f_equal.
      apply (proj1 (proj2 (@float_validator_result Dec.float (Str "tall") "mesh_height"))
               e Hv).
Defined.

Lemma validate_bool_accepts_witness :
  validate_bool (Str "VRAI") = Ret true /\ validate_bool (Int 0) = Ret false.
Proof.
  split.
  - apply (proj1 validate_bool_accepts "vrai" "VRAI" true); reflexivity.
  - apply (proj2 (proj2 validate_bool_accepts) 0%Z false). reflexivity.
Defined.

